(** * Riemannian automatic differentiation on Tensor-Train tensors

    A shallow embedding of [t3f/autodiff.py]: the gauge projector
    [_enforce_gauge_conditions], the invariance checker
    [_is_invariant_to_input_transforms], the two public orchestrators
    [gradients] and [hessian_vector_product], and the unfinished
    [_block_diag_hessian_vector_product].

    Tensors are row-major lists of scalars with a static shape.  The scalar
    type is a parameter (the dtype of the host engine): the structural
    results hold for every dtype, the algebraic ones for exact arithmetic
    (a commutative ring, instantiated with the real numbers), and the
    results on the invariance checker for IEEE 754 binary formats. *)

From Stdlib Require Import String Ascii.
From Stdlib Require Import List Arith ZArith Lia Bool.
From Stdlib Require Import Ring_theory Ring.
From Stdlib Require Import Reals Lra.
From Stdlib Require Import SpecFloat.
Import ListNotations.

Set Implicit Arguments.

(** * Part I: the program *)

(** ** Python exceptions and the error monad *)


(** Exceptions raised while the expression graph is being built. *)
Inductive exn : Type :=
| ValueError
| IndexError
| TypeError
| NameError (name : string).

Inductive result (A : Type) : Type :=
| Ok (a : A)
| Raise (e : exn).

Arguments Ok {A} a.
Arguments Raise {A} e.

Definition bind {A B : Type} (m : result A) (k : A -> result B) : result B :=
  match m with
  | Ok a => k a
  | Raise e => Raise e
  end.

Declare Scope py_scope.
Delimit Scope py_scope with py.
Notation "x <- m ;; k" := (bind m (fun x => k))
  (at level 61, m at next level, right associativity) : py_scope.
Notation "' pat <- m ;; k" := (bind m (fun x => match x with pat => k end))
  (at level 61, pat pattern, m at next level, right associativity) : py_scope.
Local Open Scope py_scope.

(** [for x in xs: out.append(f x)], stopping at the first exception. *)
Fixpoint mapM {A B : Type} (f : A -> result B) (xs : list A) : result (list B) :=
  match xs with
  | [] => Ok []
  | x :: xs' => y <- f x ;; ys <- mapM f xs' ;; Ok (y :: ys)
  end.

(** [xs[i]] for a non-negative index. *)
Definition index {A : Type} (xs : list A) (i : nat) : result A :=
  match nth_error xs i with
  | Some x => Ok x
  | None => Raise IndexError
  end.

(** ** Scalars: the dtype of the host engine *)

Class Scalar (T : Type) : Type := {
  dzero : T;
  dunit : T;
  dadd : T -> T -> T;
  dsub : T -> T -> T;
  dmul : T -> T -> T;
  ddiv : T -> T -> T;
  dabs : T -> T;
  dlt : T -> T -> bool;
(** the Python literal [1e-5] converted to the dtype *)
  d1em5 : T
}.

(** ** Tensors *)

Section Tensors.
Context {T : Type} {ST : Scalar T}.

Record Tensor : Type := mkTensor { shape : list nat; data : list T }.

Definition numel (s : list nat) : nat := fold_right Nat.mul 1 s.

Definition tensor_wf (t : Tensor) : Prop :=
  length (data t) = numel (shape t).

(** Entry [(i, j)] of a row-major matrix with [cols] columns. *)
Definition at2 (cols : nat) (d : list T) (i j : nat) : T :=
  nth (i * cols + j) d dzero.

(** The row-major data of the [m] x [n] matrix with entries [f i j]. *)
Definition tabulate2 (m n : nat) (f : nat -> nat -> T) : list T :=
  flat_map (fun i => map (f i) (seq 0 n)) (seq 0 m).

(** [f 0 + f 1 + ... + f (k - 1)], accumulated from zero. *)
Definition sum_upto (k : nat) (f : nat -> T) : T :=
  fold_left (fun acc l => dadd acc (f l)) (seq 0 k) dzero.

(** [tf.reshape(t, s)] for a fully specified shape [s]. *)
Definition reshape (t : Tensor) (s : list nat) : result Tensor :=
  if numel s =? numel (shape t)
  then Ok {| shape := s; data := data t |}
  else Raise ValueError.

(** [tf.reshape(t, (-1, c))]: the number of rows is inferred. *)
Definition reshape_rows (t : Tensor) (c : nat) : result Tensor :=
  let n := numel (shape t) in
  if c =? 0 then Raise ValueError
  else if n mod c =? 0
       then Ok {| shape := [n / c; c]; data := data t |}
       else Raise ValueError.

(** [tf.transpose(a)] of a matrix.  The projector only transposes the
    result of [reshape_rows], which has rank two. *)
Definition transpose (a : Tensor) : result Tensor :=
  match shape a with
  | [m; n] => Ok {| shape := [n; m];
                    data := tabulate2 n m (fun j i => at2 n (data a) i j) |}
  | _ => Raise ValueError
  end.

(** [tf.matmul(a, b)] of two matrices. *)
Definition matmul (a b : Tensor) : result Tensor :=
  match shape a, shape b with
  | [m; k], [k'; n] =>
      if k =? k'
      then Ok {| shape := [m; n];
                 data := tabulate2 m n (fun i j =>
                   sum_upto k (fun l =>
                     dmul (at2 k (data a) i l) (at2 n (data b) l j))) |}
      else Raise ValueError
  | _, _ => Raise ValueError
  end.

Fixpoint zip_with (f : T -> T -> T) (xs ys : list T) : list T :=
  match xs, ys with
  | x :: xs', y :: ys' => f x y :: zip_with f xs' ys'
  | _, _ => []
  end.

(** [a - b] and [a * b] on tensors of one shape.  (The host engine would
    broadcast unequal shapes; the code below never subtracts or
    multiplies tensors it has not first brought to one shape.) *)
Definition shape_eqb (s1 s2 : list nat) : bool :=
  if list_eq_dec Nat.eq_dec s1 s2 then true else false.

Definition tensor_sub (a b : Tensor) : result Tensor :=
  if shape_eqb (shape a) (shape b)
  then Ok {| shape := shape a; data := zip_with dsub (data a) (data b) |}
  else Raise ValueError.

Definition tensor_mul (a b : Tensor) : result Tensor :=
  if shape_eqb (shape a) (shape b)
  then Ok {| shape := shape a; data := zip_with dmul (data a) (data b) |}
  else Raise ValueError.

(** [tf.zeros_like(t)]. *)
Definition zeros_like (t : Tensor) : Tensor :=
  {| shape := shape t; data := repeat dzero (length (data t)) |}.

(** [tf.reduce_sum(t)]: the sum of all the entries. *)
Definition reduce_sum (t : Tensor) : T :=
  fold_left dadd (data t) dzero.

(** ** Tensor-Train tensors *)

(** A TT object: its cores, and whether it is a TT-matrix (cores of rank
    four) or a plain TT-tensor (cores of rank three). *)
Record TensorTrain : Type := mkTT {
  tt_cores : list Tensor;
  is_tt_matrix : bool
}.

Definition ndims (x : TensorTrain) : nat := length (tt_cores x).

(** [r1, n, r2 = core.shape.as_list()] and its four-name variant: the
    unpacking raises when the number of dimensions is not the expected
    one.  Only the last dimension, [r2], is used afterwards. *)
Definition unpack_r2 (matrix : bool) (s : list nat) : result nat :=
  match matrix, s with
  | true, [_; _; _; r2] => Ok r2
  | false, [_; _; r2] => Ok r2
  | _, _ => Raise ValueError
  end.

(** ** The gauge projector *)

(** One iteration of the loop of [_enforce_gauge_conditions]. *)
Definition gauge_step (deltas : list Tensor) (left : TensorTrain)
           (i : nat) : result Tensor :=
  core <- index (tt_cores left) i ;;
  r2 <- unpack_r2 (is_tt_matrix left) (shape core) ;;
  q <- reshape_rows core r2 ;;
  if i <? ndims left - 1 then
    proj_delta <- index deltas i ;;
    proj_delta <- reshape_rows proj_delta r2 ;;
    qt <- transpose q ;;
    qt_delta <- matmul qt proj_delta ;;
    q_qt_delta <- matmul q qt_delta ;;
    proj_delta <- tensor_sub proj_delta q_qt_delta ;;
    reshape proj_delta (shape core)
  else
    index deltas i.

Definition _enforce_gauge_conditions (deltas : list Tensor)
           (left : TensorTrain) : result (list Tensor) :=
  mapM (gauge_step deltas left) (seq 0 (ndims left)).

End Tensors.

Arguments Tensor T : clear implicits.
Arguments TensorTrain T : clear implicits.

(** ** The deferred expression graph *)

Section Graph.
Context {T : Type} {ST : Scalar T}.

(** [tf.Assert(condition, data, name)]. *)
Record AssertOp : Type := mkAssert {
  condition : bool;
  assert_message : string;
  assert_values : T * T;
  assert_name : string
}.

(** A tensor, TT object or list of tensors of the graph: the value it
    evaluates to, and the assertions it depends on, through its inputs or
    through control dependencies.  They are evaluated whenever the node
    is. *)
Record Node (A : Type) : Type := mkNode {
  value : A;
  guards : list AssertOp
}.

(** What evaluating a node gives: its value, or the failure of an
    assertion it depends on, which carries the assertion's data. *)
Inductive outcome (A : Type) : Type :=
| Value (a : A)
| InvalidArgumentError (message : string) (values : T * T).

Definition run {A : Type} (n : Node A) : outcome A :=
  match find (fun a => negb (condition a)) (guards n) with
  | Some a => InvalidArgumentError A (assert_message a) (assert_values a)
  | None => Value (value n)
  end.

(** Graph construction: it reads the control dependencies in force,
    appends to the standard output, and may raise. *)
Definition G (A : Type) : Type :=
  list AssertOp -> list string -> result (A * list string).

Definition ret {A : Type} (a : A) : G A := fun _ out => Ok (a, out).

Definition bindG {A B : Type} (m : G A) (k : A -> G B) : G B :=
  fun ctx out =>
    match m ctx out with
    | Ok (a, out') => k a ctx out'
    | Raise e => Raise e
    end.

Definition lift {A : Type} (r : result A) : G A :=
  fun _ out => match r with Ok a => Ok (a, out) | Raise e => Raise e end.

Definition print (s : string) : G unit := fun _ out => Ok (tt, out ++ [s]).

(** A new operation with value [v], whose inputs depend on [deps]. *)
Definition op {A : Type} (deps : list AssertOp) (v : A) : G (Node A) :=
  fun ctx out => Ok ({| value := v; guards := ctx ++ deps |}, out).

Definition op1 {A B : Type} (f : A -> B) (a : Node A) : G (Node B) :=
  op (guards a) (f (value a)).

Definition op2 {A B C : Type} (f : A -> B -> C) (a : Node A) (b : Node B)
  : G (Node C) :=
  op (guards a ++ guards b) (f (value a) (value b)).

(** An input of the graph. *)
Definition input {A : Type} (a : A) : Node A := {| value := a; guards := [] |}.

End Graph.

Arguments AssertOp T : clear implicits.
Arguments Node T A : clear implicits.
Arguments outcome T A : clear implicits.
Arguments G T A : clear implicits.
Arguments Value {T A} a.
Arguments InvalidArgumentError {T A} message values.

Declare Scope graph_scope.
Delimit Scope graph_scope with graph.
Notation "x <- m ;; k" := (bindG m (fun x => k))
  (at level 61, m at next level, right associativity) : graph_scope.
Notation "m ;;; k" := (bindG m (fun _ => k))
  (at level 61, right associativity) : graph_scope.

(** ** The collaborators *)

(** The libraries [autodiff.py] calls: the orthogonalizer
    ([decompositions]), the tangent-space codec ([riemannian]) and the
    differentiation engine ([tf.gradients]).  [tf_gradients F p] is the
    list of gradients at [p] of a scalar expression, given as the function
    [F] of the targets.  [accepts_none_control_input] says whether
    [tf.control_dependencies] takes a [None] entry as no dependency, or
    rejects it with a [TypeError]. *)
Class Host (T : Type) : Type := {
  orthogonalize_tt_cores : TensorTrain T -> bool -> TensorTrain T;
  deltas_to_tangent_space :
    list (Tensor T) -> TensorTrain T -> TensorTrain T -> TensorTrain T ->
    TensorTrain T;
  project : TensorTrain T -> TensorTrain T -> TensorTrain T;
  tangent_space_to_deltas : TensorTrain T -> list (Tensor T);
  tf_gradients : (list (Tensor T) -> T) -> list (Tensor T) -> list (Tensor T);
  accepts_none_control_input : bool
}.

(** ** The invariance checker and the orchestrators *)

Section Orchestrators.
Context {T : Type} {ST : Scalar T} {HT : Host T}.
Local Open Scope graph_scope.

(** [with tf.control_dependencies(control_inputs): body]: the operations
    [body] creates depend on the control inputs. *)
Definition control_dependencies {A : Type}
           (control_inputs : list (option (Node T (AssertOp T))))
           (body : G T A) : G T A :=
  fun ctx out =>
    if forallb (fun c => match c with Some _ => true | None => false end)
               control_inputs
       || accepts_none_control_input
    then body (ctx ++ flat_map (fun c => match c with
                                         | Some n => value n :: guards n
                                         | None => []
                                         end) control_inputs) out
    else Raise TypeError.

Definition warning : string :=
  "Warning: debug mode of Riemannian autodiff is turned on which makes things a bit slower. It is advisable to keep debug=True untill actuall production usage, since debug mode does help to catch bugs."%string.

Definition err_msg : string :=
  "The function passed to Riemannian autodiff returns different values for two different versions of the same tensor. The function values are"%string.

Definition _is_invariant_to_input_transforms
           (f_value_1 f_value_2 : Node T T) (name : string)
  : G T (Node T (AssertOp T)) :=
  print warning ;;;
  diff <- op2 dsub f_value_1 f_value_2 ;;
  quotient <- op2 ddiv diff f_value_1 ;;
  rel_diff <- op1 dabs quotient ;;
  cond <- op1 (fun r => dlt r d1em5) rel_diff ;;
  op (guards cond ++ guards f_value_1 ++ guards f_value_2)
     (mkAssert (value cond) err_msg (value f_value_1, value f_value_2) name).

(** [[right.tt_cores[0]] + [tf.zeros_like(cc) for cc in right.tt_cores[1:]]]. *)
Definition initial_deltas (right : TensorTrain T) : result (list (Tensor T)) :=
  (first <- index (tt_cores right) 0 ;;
   Ok ([first] ++ map zeros_like (tl (tt_cores right))))%py.

(** The function value as a function of the deltas. *)
Definition value_at (func : TensorTrain T -> T) (x left right : TensorTrain T)
  : list (Tensor T) -> T :=
  fun deltas => func (deltas_to_tangent_space deltas x left right).

(** Lines 97 to 106, shared by the two orchestrators. *)
Record prologue : Type := {
  p_left : Node T (TensorTrain T);
  p_right : Node T (TensorTrain T);
  p_deltas : Node T (list (Tensor T));
  p_x_projection : Node T (TensorTrain T);
  p_function_value : Node T T;
  p_assert_op : option (Node T (AssertOp T))
}.

Definition encode_op (deltas : Node T (list (Tensor T)))
           (x left right : Node T (TensorTrain T)) : G T (Node T (TensorTrain T)) :=
  op (guards deltas ++ guards x ++ guards left ++ guards right)
     (deltas_to_tangent_space (value deltas) (value x) (value left) (value right)).

Definition start (func : TensorTrain T -> T) (x : Node T (TensorTrain T))
           (debug : bool) : G T prologue :=
  left <- op1 (fun x => orthogonalize_tt_cores x true) x ;;
  right <- op1 (fun l => orthogonalize_tt_cores l false) left ;;
  deltas0 <- lift (initial_deltas (value right)) ;;
  deltas <- op (guards right) deltas0 ;;
  x_projection <- encode_op deltas x left right ;;
  function_value <- op1 func x_projection ;;
  assert_op <-
    (if debug then
       f_right <- op1 func right ;;
       a <- _is_invariant_to_input_transforms function_value f_right
              "check_autodiff_arguments"%string ;;
       ret (Some a)
     else ret None) ;;
  ret {| p_left := left; p_right := right; p_deltas := deltas;
         p_x_projection := x_projection;
         p_function_value := function_value; p_assert_op := assert_op |}.

Definition gauge_op (deltas : Node T (list (Tensor T)))
           (left : Node T (TensorTrain T)) : G T (Node T (list (Tensor T))) :=
  projected <- lift (_enforce_gauge_conditions (value deltas) (value left)) ;;
  op (guards deltas ++ guards left) projected.

(** The locals of [gradients]. *)
Record gradients_locals : Type := {
  g_start : prologue;
  g_cores_grad : Node T (list (Tensor T));
  g_deltas : Node T (list (Tensor T));
  g_return : Node T (TensorTrain T)
}.

Definition gradients_body (func : TensorTrain T -> T) (x : TensorTrain T)
           (debug : bool) : G T gradients_locals :=
  let x := input x in
  s <- start func x debug ;;
  cores_grad <-
    control_dependencies [p_assert_op s]
      (op (guards (p_function_value s) ++ guards (p_deltas s))
          (tf_gradients (value_at func (value x) (value (p_left s)) (value (p_right s)))
                        (value (p_deltas s)))) ;;
  deltas <- gauge_op cores_grad (p_left s) ;;
  result <- encode_op deltas x (p_left s) (p_right s) ;;
  ret {| g_start := s; g_cores_grad := cores_grad; g_deltas := deltas;
         g_return := result |}.

Definition gradients (func : TensorTrain T -> T) (x : TensorTrain T)
           (debug : bool) : G T (Node T (TensorTrain T)) :=
  l <- gradients_body func x debug ;; ret (g_return l).

(** [[tf.reduce_sum(a * b) for a, b in zip(cores_grad, vec_deltas)]]. *)
Definition products (cores_grad vec_deltas : list (Tensor T)) : result (list T) :=
  mapM (fun ab => (t <- tensor_mul (fst ab) (snd ab) ;; Ok (reduce_sum t))%py)
       (combine cores_grad vec_deltas).

(** [tf.add_n(inputs)] on scalars; it rejects an empty list. *)
Definition add_n (inputs : list T) : result T :=
  match inputs with
  | [] => Raise ValueError
  | p :: ps => Ok (fold_left dadd ps p)
  end.

Definition grad_times_vec_of (cores_grad vec_deltas : list (Tensor T)) : result T :=
  (ps <- products cores_grad vec_deltas ;; add_n ps)%py.

(** [grad_times_vec] as a function of the deltas: the first gradient is
    taken at the given deltas, the decoded vector is a constant. *)
Definition directional (func : TensorTrain T -> T) (x left right : TensorTrain T)
           (vec_deltas : list (Tensor T)) : list (Tensor T) -> T :=
  fun deltas =>
    match grad_times_vec_of
            (tf_gradients (value_at func x left right) deltas) vec_deltas with
    | Ok v => v
    | Raise _ => dzero
    end.

(** The locals of [hessian_vector_product]. *)
Record hvp_locals : Type := {
  h_start : prologue;
  h_vector_projected : Node T (TensorTrain T);
  h_cores_grad : Node T (list (Tensor T));
  h_vec_deltas : Node T (list (Tensor T));
  h_grad_times_vec : Node T T;
  h_second_cores_grad : Node T (list (Tensor T));
  h_final_deltas : Node T (list (Tensor T));
  h_return : Node T (TensorTrain T)
}.

Definition hvp_body (func : TensorTrain T -> T) (x vector : TensorTrain T)
           (debug : bool) : G T hvp_locals :=
  let x := input x in
  let vector := input vector in
  s <- start func x debug ;;
  vector_projected <-
    control_dependencies [p_assert_op s] (op2 project vector x) ;;
  cores_grad <-
    op (guards (p_function_value s) ++ guards (p_deltas s))
       (tf_gradients (value_at func (value x) (value (p_left s)) (value (p_right s)))
                     (value (p_deltas s))) ;;
  vec_deltas <- op1 tangent_space_to_deltas vector_projected ;;
  gtv <- lift (grad_times_vec_of (value cores_grad) (value vec_deltas)) ;;
  grad_times_vec <- op (guards cores_grad ++ guards vec_deltas) gtv ;;
  second_cores_grad <-
    op (guards grad_times_vec ++ guards (p_deltas s))
       (tf_gradients (directional func (value x) (value (p_left s))
                                  (value (p_right s)) (value vec_deltas))
                     (value (p_deltas s))) ;;
  final_deltas <- gauge_op second_cores_grad (p_left s) ;;
  result <- encode_op final_deltas x (p_left s) (p_right s) ;;
  ret {| h_start := s; h_vector_projected := vector_projected;
         h_cores_grad := cores_grad; h_vec_deltas := vec_deltas;
         h_grad_times_vec := grad_times_vec;
         h_second_cores_grad := second_cores_grad;
         h_final_deltas := final_deltas; h_return := result |}.

Definition hessian_vector_product (func : TensorTrain T -> T)
           (x vector : TensorTrain T) (debug : bool)
  : G T (Node T (TensorTrain T)) :=
  l <- hvp_body func x vector debug ;; ret (h_return l).

(** Building the graph from scratch, then evaluating the node returned. *)
Inductive answer (A : Type) : Type :=
| Returned (o : outcome T A)
| Raised (e : exn).

Definition build {A : Type} (g : G T A) : result (A * list string) := g [] [].

Definition session_run {A : Type} (g : G T (Node T A)) : answer A :=
  match build g with
  | Ok (n, _) => Returned (run n)
  | Raise e => Raised A e
  end.

End Orchestrators.

(** ** The unfinished block-diagonal variant *)

(** The names [autodiff.py] binds at module level: its imports and its
    function definitions. *)
Definition module_names : list string :=
  ["tf"; "TensorTrain"; "shapes"; "batch_ops"; "decompositions"; "riemannian";
   "_enforce_gauge_conditions"; "_is_invariant_to_input_transforms";
   "gradients"; "hessian_vector_product";
   "_block_diag_hessian_vector_product"]%string.

(** The builtins the module uses. *)
Definition builtin_names : list string := ["print"; "range"; "list"; "zip"]%string.

(** The names a function's callers may rely on: no leading underscore. *)
Definition is_private (name : string) : bool := String.prefix "_" name.

Section BlockDiagonal.
  Context {T : Type} {ST : Scalar T} {HT : Host T}.

(** The module namespace the function runs in, and what the two names
    that the function reads and never assigns, [_gradients] and [w],
    would stand for if that namespace bound them. *)
  Variable names : list string.
  Variable gradients_impl :
    (TensorTrain T -> T) -> TensorTrain T -> TensorTrain T -> TensorTrain T ->
    TensorTrain T -> TensorTrain T.
  Variable w_impl : TensorTrain T.

(** Reading a name that is not local to the function: the module
    namespace, then the builtins, else [NameError]. *)
Definition load_global {A : Type} (name : string) (bound_to : A) : result A :=
  if existsb (String.eqb name) (names ++ builtin_names)
  then Ok bound_to
  else Raise (NameError name).

(** [t[..., :k]] and [t[k:, ...]]. *)
Definition slice_last_prefix (k : nat) (t : Tensor T) : Tensor T :=
  let last := List.last (shape t) 1 in
  let rows := numel (removelast (shape t)) in
  {| shape := removelast (shape t) ++ [Nat.min k last];
     data := flat_map (fun r => firstn k (firstn last (skipn (r * last) (data t))))
                      (seq 0 rows) |}.

Definition slice_first_suffix (k : nat) (t : Tensor T) : Tensor T :=
  match shape t with
  | [] => t
  | d :: rest => {| shape := (d - k) :: rest; data := skipn (k * numel rest) (data t) |}
  end.

(** [tf.eye(k)]. *)
Definition eye (k : nat) : Tensor T :=
  {| shape := [k; k];
     data := tabulate2 k k (fun i j => if i =? j then dunit else dzero) |}.

(** [a - b] on matrices, with broadcasting of dimensions of size one. *)
Definition broadcast_sub (a b : Tensor T) : result (Tensor T) :=
  match shape a, shape b with
  | [m; n], [m'; n'] =>
      if ((m =? m') || (m =? 1) || (m' =? 1)) && ((n =? n') || (n =? 1) || (n' =? 1))
      then Ok {| shape := [Nat.max m m'; Nat.max n n'];
                 data := tabulate2 (Nat.max m m') (Nat.max n n') (fun i j =>
                   dsub (at2 n (data a) (if m =? 1 then 0 else i) (if n =? 1 then 0 else j))
                        (at2 n' (data b) (if m' =? 1 then 0 else i)
                             (if n' =? 1 then 0 else j))) |}
      else Raise ValueError
  | _, _ => Raise ValueError
  end.

(** [r1, n, m, r2 = shape] and [r1, n, r2 = shape]. *)
Definition unpack_core (matrix : bool) (s : list nat) : result (nat * nat * nat) :=
  match matrix, s with
  | true, [r1; n; _; r2] => Ok (r1, n, r2)
  | false, [r1; n; r2] => Ok (r1, n, r2)
  | _, _ => Raise ValueError
  end.

(** What the loop has computed when it reaches the branch on
    [x.is_tt_matrix()]. *)
Record before_branch : Type := {
  b_cores_grad : Tensor T;
  b_r1 : nat;
  b_n : nat;
  b_r2 : nat;
  b_q : Tensor T
}.

Definition replace_core (x : TensorTrain T) (i : nat) (c : Tensor T) : TensorTrain T :=
  mkTT (firstn i (tt_cores x) ++ c :: skipn (S i) (tt_cores x)) (is_tt_matrix x).

Definition step_prefix (func : TensorTrain T -> T)
           (x x_projection left right : TensorTrain T)
           (vector_deltas grad_deltas : list (Tensor T)) (i : nat)
  : result before_branch :=
  g <- index grad_deltas i ;;
  v <- index vector_deltas i ;;
  _ <- tensor_mul g v ;;
  core <- index (tt_cores x_projection) i ;;
  (* h, as a function of core [i] of [x_projection] *)
  let h := fun cs =>
    let xp := replace_core x_projection i (nth 0 cs core) in
    let gd := tangent_space_to_deltas (gradients_impl func x xp left right) in
    match (g' <- index gd i ;; t <- tensor_mul g' v ;; Ok (reduce_sum t)) with
    | Ok s => s
    | Raise _ => dzero
    end in
  cores_grad <- index (tf_gradients h [core]) 0 ;;
  lcore <- index (tt_cores left) i ;;
  '(r1, n, r2) <- unpack_core (is_tt_matrix x) (shape lcore) ;;
  q <- reshape_rows lcore r2 ;;
  Ok {| b_cores_grad := cores_grad; b_r1 := r1; b_n := n; b_r2 := r2; b_q := q |}.

Definition step_branch (x : TensorTrain T) (i : nat) (b : before_branch)
  : result (Tensor T) :=
  let cores_grad := b_cores_grad b in
  if is_tt_matrix x then
    if i =? 0 then Ok (slice_last_prefix (b_r2 b) cores_grad)
    else
      w <- load_global "w" w_impl ;;
      if i =? ndims w - 1 then Ok (slice_first_suffix (b_r1 b) cores_grad)
      else Ok (slice_first_suffix (b_r1 b) (slice_last_prefix (b_r2 b) cores_grad))
  else
    if i =? 0 then Ok (slice_last_prefix (b_r2 b) cores_grad)
    else if i =? ndims x - 1 then Ok (slice_first_suffix (b_r1 b) cores_grad)
    else Ok (slice_first_suffix (b_r1 b) (slice_last_prefix (b_r2 b) cores_grad)).

Definition step_project (x left : TensorTrain T) (i : nat) (b : before_branch)
           (curr_grad : Tensor T) : result (Tensor T) :=
  if i <? ndims x - 1 then
    diff <- broadcast_sub (eye (b_r1 b * b_n b)) (b_q b) ;;
    qt <- transpose (b_q b) ;;
    proj <- matmul diff qt ;;
    flat <- reshape_rows curr_grad (b_r2 b) ;;
    delta <- matmul proj flat ;;
    lcore <- index (tt_cores left) i ;;
    reshape delta (shape lcore)
  else Ok curr_grad.

Definition block_diag_step (func : TensorTrain T -> T)
           (x x_projection left right : TensorTrain T)
           (vector_deltas grad_deltas : list (Tensor T)) (i : nat)
  : result (Tensor T) :=
  b <- step_prefix func x x_projection left right vector_deltas grad_deltas i ;;
  curr_grad <- step_branch x i b ;;
  step_project x left i b curr_grad.

Definition _block_diag_hessian_vector_product (func : TensorTrain T -> T)
           (x vector : TensorTrain T) : result (TensorTrain T) :=
  let left := orthogonalize_tt_cores x true in
  let right := orthogonalize_tt_cores left false in
  deltas <- initial_deltas right ;;
  let x_projection := deltas_to_tangent_space deltas x left right in
  _gradients <- load_global "_gradients" gradients_impl ;;
  let grad := _gradients func x x_projection left right in
  let vector_projected := project vector x in
  let vector_deltas := tangent_space_to_deltas vector_projected in
  let grad_deltas := tangent_space_to_deltas grad in
  final_deltas <-
    mapM (block_diag_step func x x_projection left right vector_deltas grad_deltas)
         (seq 0 (ndims x)) ;;
  Ok (deltas_to_tangent_space final_deltas x left right).

End BlockDiagonal.

(** * Part II: dtypes and collaborators to run the program on *)

(** ** Dtype instances *)

(** IEEE 754 binary formats, from the specification of floating-point
    arithmetic of the standard library: [prec] bits of mantissa, [emax] the
    exponent of the infinities. *)
Module IEEE.
  Section Format.
  Variables prec emax : Z.

Definition of_Z (z : Z) : spec_float :=
    binary_normalize prec emax z 0 false.

  (** The decimal literal [1e-5], correctly rounded to the format. *)
Definition lit_1em5 : spec_float :=
    SFdiv prec emax (of_Z 1) (of_Z 100000).

Definition scalar : Scalar spec_float := {|
    dzero := S754_zero false;
    dunit := of_Z 1;
    dadd := SFadd prec emax;
    dsub := SFsub prec emax;
    dmul := SFmul prec emax;
    ddiv := SFdiv prec emax;
    dabs := SFabs;
    dlt := SFltb;
    d1em5 := lit_1em5
  |}.
  End Format.

Definition binary64 : Scalar spec_float := scalar 53 1024.
End IEEE.

(** Exact arithmetic on the real numbers.  It is no dtype of the program,
    which runs on floating-point numbers: it is the instance of the ring
    laws at which the properties that need exact arithmetic are run. *)
Module Exact.
Definition Rltb (a b : R) : bool := if Rlt_dec a b then true else false.

Definition scalar : Scalar R := {|
    dzero := 0%R;
    dunit := 1%R;
    dadd := Rplus;
    dsub := Rminus;
    dmul := Rmult;
    ddiv := Rdiv;
    dabs := Rabs;
    dlt := Rltb;
    d1em5 := (1 / 100000)%R
  |}.

Lemma exact_ring :
  ring_theory (@dzero R scalar) (@dunit R scalar) (@dadd R scalar)
              (@dmul R scalar) (@dsub R scalar) Ropp eq.
Proof. exact RTheory. Qed.
End Exact.

(** ** Collaborators for the examples *)

(** A small host on which the models run: TT-tensors whose cores are
    already orthogonal (the orthogonalizer returns its argument), the block
    construction of a tangent vector from its deltas and its inverse, the
    vector's cores taken as delta coordinates for the projection, and
    gradients by central differences, which are exact on polynomials of
    degree two.  Central differences stand for [tf.gradients] only on a
    scalar that depends on every target (for a target the scalar does not
    depend on, [tf.gradients] returns [None], not a tensor of zeros): the
    examples differentiate such scalars only.  The host serves the
    examples: the theorems hold for every host. *)
Module Example.

Section Collaborators.
  Context {T : Type} {ST : Scalar T}.

(** Row [k] of a matrix with [r] columns. *)
Definition row (r : nat) (d : list T) (k : nat) : list T :=
  firstn r (skipn (k * r) d).

(** [tf.concat((a, b), axis=2)] and [tf.concat((a, b), axis=0)] on
    tensors of rank three. *)
Definition concat_last (a b : Tensor T) : Tensor T :=
  match shape a, shape b with
  | [p; n; r], [_; _; r'] =>
      {| shape := [p; n; r + r'];
         data := flat_map (fun k => row r (data a) k ++ row r' (data b) k)
                          (seq 0 (p * n)) |}
  | _, _ => a
  end.

Definition concat_first (a b : Tensor T) : Tensor T :=
  match shape a, shape b with
  | [p; n; r], [q; _; _] => {| shape := [p + q; n; r]; data := data a ++ data b |}
  | _, _ => a
  end.

(** The first half of the last axis, and the second half of the first. *)
Definition left_half (a : Tensor T) : Tensor T :=
  match shape a with
  | [p; n; r] =>
      {| shape := [p; n; r / 2];
         data := flat_map (fun k => firstn (r / 2) (row r (data a) k)) (seq 0 (p * n)) |}
  | _ => a
  end.

Definition lower_half (a : Tensor T) : Tensor T :=
  match shape a with
  | [p; n; r] =>
      {| shape := [p - p / 2; n; r]; data := skipn (p / 2 * n * r) (data a) |}
  | _ => a
  end.

Definition nth_core (cs : list (Tensor T)) (i : nat) : Tensor T :=
  nth i cs (mkTensor [] []).

Definition block_encode (deltas : list (Tensor T)) (x left right : TensorTrain T)
  : TensorTrain T :=
  let d := ndims left in
  mkTT (map (fun i =>
               let delta := nth_core deltas i in
               let l := nth_core (tt_cores left) i in
               let r := nth_core (tt_cores right) i in
               if i =? 0 then concat_last delta l
               else if i =? d - 1 then concat_first r delta
               else concat_first (concat_last r (zeros_like l)) (concat_last delta l))
            (seq 0 d))
       (is_tt_matrix x).

Definition block_decode (v : TensorTrain T) : list (Tensor T) :=
  let d := ndims v in
  map (fun i =>
         let c := nth_core (tt_cores v) i in
         if i =? 0 then left_half c
         else if i =? d - 1 then lower_half c
         else left_half (lower_half c))
      (seq 0 d).

(** The tensor a TT-tensor represents, in row-major order: the chain
    product of its cores. *)
Definition full (x : TensorTrain T) : list T :=
  data (fold_left
          (fun acc c =>
             match shape c with
             | [r1; n; r2] =>
                 match (c' <- reshape c [r1; n * r2] ;;
                        m <- matmul acc c' ;;
                        reshape_rows m r2)%py with
                 | Ok t => t
                 | Raise _ => acc
                 end
             | _ => acc
             end)
          (tt_cores x) {| shape := [1; 1]; data := [dunit] |}).

(** Entry [j] of tensor [k] moved by [step]. *)
Definition bump (step : T) (p : list (Tensor T)) (k j : nat) : list (Tensor T) :=
  map (fun i =>
         let t := nth_core p i in
         if i =? k
         then {| shape := shape t;
                 data := map (fun j' => let e := nth j' (data t) dzero in
                                        if j' =? j then dadd e step else e)
                             (seq 0 (length (data t))) |}
         else t)
      (seq 0 (length p)).

Definition central_differences (F : list (Tensor T) -> T) (p : list (Tensor T))
  : list (Tensor T) :=
  let two := dadd dunit dunit in
  map (fun k =>
         let t := nth_core p k in
         {| shape := shape t;
            data := map (fun j => ddiv (dsub (F (bump dunit p k j))
                                             (F (bump (dsub dzero dunit) p k j)))
                                       two)
                        (seq 0 (length (data t))) |})
      (seq 0 (length p)).

Definition host (none_ok : bool) : Host T := {|
  orthogonalize_tt_cores := fun x _ => x;
  deltas_to_tangent_space := block_encode;
  project := fun vector x => block_encode (tt_cores vector) x x x;
  tangent_space_to_deltas := block_decode;
  tf_gradients := central_differences;
  accepts_none_control_input := none_ok
|}.

(** [0.5 * flat_inner(x, t) ** 2] for a fixed tensor [t], given in full. *)
Definition half_inner_squared (t : list T) (x : TensorTrain T) : T :=
  let s := fold_left dadd (zip_with dmul (full x) t) dzero in
  dmul (ddiv dunit (dadd dunit dunit)) (dmul s s).

(** A function of the representation, which depends on every core and so
    on every delta: [sum(tf.reduce_sum(c ** 2) for c in x.tt_cores)]. *)
Definition cores_sum_of_squares (x : TensorTrain T) : T :=
  fold_left (fun acc c =>
               dadd acc (fold_left (fun a e => dadd a (dmul e e)) (data c) dzero))
            (tt_cores x) dzero.

End Collaborators.

(** Points in binary64. *)
Definition z (n : Z) : spec_float := IEEE.of_Z 53 1024 n.

Definition core (s : list nat) (d : list Z) : Tensor spec_float :=
  {| shape := s; data := map z d |}.

(** [e1 (x) e1] in a 2 x 2 space, with TT-rank one. *)
Definition x11 : TensorTrain spec_float :=
  mkTT [core [1; 2; 1] [1; 0]%Z; core [1; 2; 1] [1; 0]%Z] false.

Definition v12 : TensorTrain spec_float :=
  mkTT [core [1; 2; 1] [3; 4]%Z; core [1; 2; 1] [5; 6]%Z] false.

(** [e2 (x) e2], orthogonal to [x11], and a tensor that is not. *)
Definition t22 : list spec_float := map z [0; 0; 0; 1]%Z.
Definition t_any : list spec_float := map z [1; 2; 3; 4]%Z.

End Example.

(** * Part III: the properties *)

(** ** Facts on row-major matrices *)

Section MatrixFacts.
Context {T : Type} {ST : Scalar T}.

Lemma length_tabulate2 (m n : nat) (f : nat -> nat -> T) :
  length (tabulate2 m n f) = m * n.
Proof.
  unfold tabulate2.
  assert (G : forall s, length (flat_map (fun i => map (f i) (seq 0 n)) (seq s m)) = m * n).
  { induction m as [|m IH]; intro s; simpl; [reflexivity|].
    rewrite length_app, length_map, length_seq, IH. reflexivity. }
  apply G.
Qed.

Lemma nth_tabulate2_from (m n s : nat) (f : nat -> nat -> T) (i j : nat) (d : T) :
  i < m -> j < n ->
  nth (i * n + j) (flat_map (fun i => map (f i) (seq 0 n)) (seq s m)) d = f (s + i) j.
Proof.
  revert s i. induction m as [|m IH]; intros s i Hi Hj; [lia|].
  simpl. destruct i as [|i].
  - simpl. rewrite app_nth1 by (rewrite length_map, length_seq; exact Hj).
    rewrite (nth_indep _ d (f s 0)) by (rewrite length_map, length_seq; exact Hj).
    rewrite map_nth, seq_nth by exact Hj. now rewrite Nat.add_0_r.
  - rewrite app_nth2 by (rewrite length_map, length_seq; simpl; lia).
    rewrite length_map, length_seq.
    replace (S i * n + j - n) with (i * n + j) by (simpl; lia).
    rewrite IH by lia. f_equal. lia.
Qed.

Lemma at2_tabulate2 (m n : nat) (f : nat -> nat -> T) (i j : nat) :
  i < m -> j < n -> at2 n (tabulate2 m n f) i j = f i j.
Proof.
  intros Hi Hj. unfold at2, tabulate2.
  now rewrite nth_tabulate2_from.
Qed.

Lemma tabulate2_ext (m n : nat) (f g : nat -> nat -> T) :
  (forall i j, i < m -> j < n -> f i j = g i j) ->
  tabulate2 m n f = tabulate2 m n g.
Proof.
  intro E. unfold tabulate2.
  rewrite !flat_map_concat_map. f_equal.
  apply map_ext_in. intros i Hi. apply in_seq in Hi.
  apply map_ext_in. intros j Hj. apply in_seq in Hj.
  apply E; lia.
Qed.

Lemma nth_tabulate2 (m n : nat) (f : nat -> nat -> T) (k : nat) (d : T) :
  k < m * n -> nth k (tabulate2 m n f) d = f (k / n) (k mod n).
Proof.
  intro Hk.
  assert (Hn : n <> 0) by (intro; subst; lia).
  rewrite (Nat.div_mod_eq k n) at 1.
  rewrite (Nat.mul_comm n). unfold tabulate2.
  rewrite nth_tabulate2_from.
  - reflexivity.
  - apply Nat.Div0.div_lt_upper_bound. lia.
  - now apply Nat.mod_upper_bound.
Qed.

Lemma tabulate2_at2 (m n : nat) (d : list T) :
  length d = m * n -> tabulate2 m n (at2 n d) = d.
Proof.
  intro L. apply nth_ext with (d := dzero) (d' := dzero).
  - now rewrite length_tabulate2.
  - intros k Hk. rewrite length_tabulate2 in Hk.
    rewrite nth_tabulate2 by exact Hk. unfold at2.
    f_equal. rewrite (Nat.div_mod_eq k n) at 3. lia.
Qed.

Lemma zip_with_tabulate2 (op : T -> T -> T) (m n : nat) (f g : nat -> nat -> T) :
  zip_with op (tabulate2 m n f) (tabulate2 m n g)
  = tabulate2 m n (fun i j => op (f i j) (g i j)).
Proof.
  unfold tabulate2.
  assert (Z1 : forall (xs ys xs' ys' : list T),
             length xs = length ys ->
             zip_with op (xs ++ xs') (ys ++ ys')
             = zip_with op xs ys ++ zip_with op xs' ys').
  { induction xs as [|x xs IH]; destruct ys as [|y ys]; simpl; intros; try discriminate;
      [reflexivity|]. f_equal. apply IH. lia. }
  assert (Z2 : forall (a b : nat -> T) (l : list nat),
             zip_with op (map a l) (map b l) = map (fun j => op (a j) (b j)) l).
  { intros a b l. induction l as [|x l IH]; simpl; [reflexivity|]. now rewrite IH. }
  assert (G : forall s,
             zip_with op (flat_map (fun i => map (f i) (seq 0 n)) (seq s m))
                         (flat_map (fun i => map (g i) (seq 0 n)) (seq s m))
             = flat_map (fun i => map (fun j => op (f i j) (g i j)) (seq 0 n)) (seq s m)).
  { induction m as [|m IH]; intro s; simpl; [reflexivity|].
    rewrite Z1 by now rewrite !length_map.
    now rewrite Z2, IH. }
  apply G.
Qed.

Lemma sum_upto_ext (k : nat) (f g : nat -> T) :
  (forall l, l < k -> f l = g l) -> sum_upto k f = sum_upto k g.
Proof.
  unfold sum_upto. generalize dzero.
  induction k as [|k IH]; intros z E; [reflexivity|].
  rewrite seq_S, !fold_left_app. simpl.
  rewrite (IH z) by (intros; apply E; lia).
  now rewrite E by lia.
Qed.

Lemma sum_upto_S (k : nat) (f : nat -> T) :
  sum_upto (S k) f = dadd (sum_upto k f) (f k).
Proof.
  unfold sum_upto. now rewrite seq_S, fold_left_app.
Qed.

Lemma numel_app (s1 s2 : list nat) : numel (s1 ++ s2) = numel s1 * numel s2.
Proof.
  induction s1 as [|a s1 IH]; simpl; [lia|]. rewrite IH. lia.
Qed.

End MatrixFacts.

(** ** The gauge projector, as the specification words it *)

Section GaugeSpec.
Context {T : Type} {ST : Scalar T}.

(** Matrices as functions of a row and a column index. *)
Definition mat_T (A : nat -> nat -> T) : nat -> nat -> T := fun i j => A j i.

Definition mat_mul (k : nat) (A B : nat -> nat -> T) : nat -> nat -> T :=
  fun i j => sum_upto k (fun l => dmul (A i l) (B l j)).

Definition mat_sub (A B : nat -> nat -> T) : nat -> nat -> T :=
  fun i j => dsub (A i j) (B i j).

(** [delta - Q (Q^T delta)] for a [p] x [r2] matrix [Q]. *)
Definition orth_complement (p r2 : nat) (Q delta : nat -> nat -> T)
  : nat -> nat -> T :=
  mat_sub delta (mat_mul r2 Q (mat_mul p (mat_T Q) delta)).

(** The shape [(rows, r2)] of a core reshaped to a matrix: rows are
    [r1 * n] for a TT-tensor and [r1 * n * m] for a TT-matrix. *)
Definition core_dims (matrix : bool) (s : list nat) : option (nat * nat) :=
  match matrix, s with
  | true, [r1; n; m; r2] => Some (r1 * n * m, r2)
  | false, [r1; n; r2] => Some (r1 * n, r2)
  | _, _ => None
  end.

(** Core [c] seen as the matrix [Q] with [r2] columns. *)
Definition as_matrix (r2 : nat) (c : Tensor T) : nat -> nat -> T :=
  at2 r2 (data c).

(** A core of a TT object: three (four) dimensions, a non-zero right
    rank. *)
Definition core_wf (matrix : bool) (c : Tensor T) : Prop :=
  exists p r2, core_dims matrix (shape c) = Some (p, r2) /\ r2 <> 0.

Definition tt_wf (x : TensorTrain T) : Prop :=
  Forall (core_wf (is_tt_matrix x)) (tt_cores x).

(** A delta-coordinate list relative to [left]: one tensor per core,
    each shaped like the corresponding core. *)
Definition deltas_wf (deltas : list (Tensor T)) (left : TensorTrain T) : Prop :=
  Forall2 (fun d c => shape d = shape c /\ tensor_wf d) deltas (tt_cores left).

Lemma core_dims_unpack (matrix : bool) (s : list nat) (p r2 : nat) :
  core_dims matrix s = Some (p, r2) ->
  unpack_r2 matrix s = Ok r2 /\ numel s = p * r2.
Proof.
  unfold core_dims, unpack_r2.
  destruct matrix; destruct s as [|a [|b [|c [|d [|e s]]]]]; try discriminate;
    intro E; inversion E; subst; simpl; split; try reflexivity; lia.
Qed.

Lemma reshape_rows_ok (t : Tensor T) (p r2 : nat) :
  numel (shape t) = p * r2 -> r2 <> 0 ->
  reshape_rows t r2 = Ok {| shape := [p; r2]; data := data t |}.
Proof.
  intros E Hr. unfold reshape_rows. rewrite E.
  destruct (Nat.eqb_spec r2 0) as [|_]; [contradiction|].
  rewrite Nat.Div0.mod_mul, Nat.div_mul by exact Hr. reflexivity.
Qed.

Lemma shape_eqb_refl (s : list nat) : shape_eqb s s = true.
Proof. unfold shape_eqb. now destruct (list_eq_dec Nat.eq_dec s s). Qed.

(** The iteration for a core before the last one. *)
Lemma gauge_step_inner (deltas : list (Tensor T)) (left : TensorTrain T)
      (i p r2 : nat) (c d : Tensor T) :
  i < ndims left - 1 ->
  nth_error (tt_cores left) i = Some c ->
  nth_error deltas i = Some d ->
  core_dims (is_tt_matrix left) (shape c) = Some (p, r2) ->
  r2 <> 0 ->
  shape d = shape c ->
  tensor_wf d ->
  gauge_step deltas left i
  = Ok {| shape := shape d;
          data := tabulate2 p r2
                    (orth_complement p r2 (as_matrix r2 c) (as_matrix r2 d)) |}.
Proof.
  intros Hi Hc Hd Hdims Hr Hs Hwf.
  destruct (@core_dims_unpack _ _ _ _ Hdims) as [Hu Hn].
  unfold gauge_step, index. rewrite Hc. simpl. rewrite Hu. simpl.
  rewrite (@reshape_rows_ok c p r2 Hn Hr). simpl.
  apply Nat.ltb_lt in Hi. rewrite Hi. rewrite Hd. simpl.
  assert (Hnd : numel (shape d) = p * r2) by now rewrite Hs.
  rewrite (@reshape_rows_ok d p r2 Hnd Hr). simpl.
  unfold matmul; simpl. repeat (rewrite Nat.eqb_refl; simpl).
  unfold tensor_sub; simpl. rewrite shape_eqb_refl.
  unfold reshape; simpl. rewrite Nat.mul_1_r, <- Hn, Nat.eqb_refl.
  rewrite Hs. f_equal. f_equal.
  unfold tensor_wf in Hwf. rewrite Hnd in Hwf.
  rewrite <- (@tabulate2_at2 _ _ p r2 (data d) Hwf) at 1.
  rewrite zip_with_tabulate2.
  apply tabulate2_ext. intros a b Ha Hb.
  unfold orth_complement, mat_sub, mat_mul, mat_T, as_matrix.
  f_equal. apply sum_upto_ext. intros l Hl. f_equal.
  rewrite at2_tabulate2 by assumption.
  apply sum_upto_ext. intros m Hm. f_equal.
  now rewrite at2_tabulate2.
Qed.

(** The iteration for the last core. *)
Lemma gauge_step_last (deltas : list (Tensor T)) (left : TensorTrain T)
      (i : nat) (c : Tensor T) :
  ~ i < ndims left - 1 ->
  nth_error (tt_cores left) i = Some c ->
  core_wf (is_tt_matrix left) c ->
  gauge_step deltas left i = index deltas i.
Proof.
  intros Hi Hc (p & r2 & Hdims & Hr).
  destruct (@core_dims_unpack _ _ _ _ Hdims) as [Hu Hn].
  unfold gauge_step. unfold index at 1. rewrite Hc. simpl. rewrite Hu. simpl.
  rewrite (@reshape_rows_ok c p r2 Hn Hr). simpl.
  apply Nat.ltb_nlt in Hi. now rewrite Hi.
Qed.

Lemma mapM_seq_ok {B : Type} (f : nat -> result B) (g : nat -> B) (s n : nat) :
  (forall i, s <= i < s + n -> f i = Ok (g i)) ->
  mapM f (seq s n) = Ok (map g (seq s n)).
Proof.
  revert s. induction n as [|n IH]; intros s E; simpl; [reflexivity|].
  rewrite E by lia. simpl. rewrite IH by (intros; apply E; lia). reflexivity.
Qed.

End GaugeSpec.

(** ** Correctness of the gauge projector *)

Section GaugeCorrect.
Context {T : Type} {ST : Scalar T}.

Lemma Forall2_nth_error {A B : Type} (R : A -> B -> Prop) (l1 : list A) (l2 : list B) :
  Forall2 R l1 l2 ->
  forall i a b, nth_error l1 i = Some a -> nth_error l2 i = Some b -> R a b.
Proof.
  induction 1 as [|x y l1 l2 Hxy _ IH]; intros [|i] a b Ha Hb; simpl in *;
    try discriminate.
  - inversion Ha; inversion Hb; subst; exact Hxy.
  - eapply IH; eassumption.
Qed.

Lemma Forall_nth_error {A : Type} (P : A -> Prop) (l : list A) :
  Forall P l -> forall i a, nth_error l i = Some a -> P a.
Proof.
  intros F i a E. rewrite Forall_forall in F. apply F.
  eapply nth_error_In; eassumption.
Qed.

Lemma Forall2_map_seq {A B : Type} (R : B -> A -> Prop) (g : nat -> B)
      (l : list A) (s : nat) :
  (forall i a, nth_error l i = Some a -> R (g (s + i)) a) ->
  Forall2 R (map g (seq s (length l))) l.
Proof.
  revert s. induction l as [|x l IH]; intros s E; simpl; constructor.
  - specialize (E 0 x eq_refl). now rewrite Nat.add_0_r in E.
  - apply IH. intros i a Ha. specialize (E (S i) a Ha).
    now rewrite Nat.add_succ_r in E.
Qed.

(** The list the projector returns, written by index. *)
Definition projected_delta (deltas : list (Tensor T)) (left : TensorTrain T)
           (i : nat) : Tensor T :=
  let d := nth i deltas (mkTensor [] []) in
  let c := nth i (tt_cores left) (mkTensor [] []) in
  if i <? ndims left - 1 then
    match core_dims (is_tt_matrix left) (shape c) with
    | Some (p, r2) =>
        {| shape := shape d;
           data := tabulate2 p r2
                     (orth_complement p r2 (as_matrix r2 c) (as_matrix r2 d)) |}
    | None => d
    end
  else d.

Lemma enforce_gauge_by_index (deltas : list (Tensor T)) (left : TensorTrain T) :
  tt_wf left ->
  deltas_wf deltas left ->
  _enforce_gauge_conditions deltas left
  = Ok (map (projected_delta deltas left) (seq 0 (ndims left))).
Proof.
  intros Hleft Hdeltas.
  unfold _enforce_gauge_conditions. apply mapM_seq_ok.
  intros i [_ Hi]. simpl in Hi.
  pose proof (Forall2_length Hdeltas) as Hlen.
  destruct (nth_error (tt_cores left) i) as [c|] eqn:Hc;
    [|apply nth_error_None in Hc; unfold ndims in Hi; lia].
  destruct (nth_error deltas i) as [d|] eqn:Hd;
    [|apply nth_error_None in Hd; unfold ndims in Hi; lia].
  destruct (Forall2_nth_error Hdeltas _ Hd Hc) as [Hs Hwf].
  pose proof (Forall_nth_error Hleft _ Hc) as Hcore.
  unfold projected_delta.
  rewrite (nth_error_nth _ _ _ Hc), (nth_error_nth _ _ _ Hd).
  destruct (Nat.ltb_spec i (ndims left - 1)) as [Hlt|Hge].
  - destruct Hcore as (p & r2 & Hdims & Hr). rewrite Hdims.
    now apply gauge_step_inner with (c := c).
  - rewrite (@gauge_step_last _ _ deltas left i c) by (assumption || lia).
    unfold index. now rewrite Hd.
Qed.

(** C3.  For a TT object [left] whose cores have three (four, for a
    TT-matrix) dimensions and a non-zero right rank, and a delta list with
    one tensor per core, shaped like the core, [_enforce_gauge_conditions]
    returns a list [out] such that: every output has the shape of the input
    delta; for each core index [i] strictly before the last, [out[i]] is
    the matrix [delta_i - Q_i (Q_i^T delta_i)], where [Q_i] is core [i]
    seen as a matrix with [r2] columns (and [r1 * n] rows, [r1 * n * m] for
    a TT-matrix) and [delta_i] likewise; the last delta is returned
    unchanged. *)
Theorem enforce_gauge_projects (deltas : list (Tensor T)) (left : TensorTrain T) :
  tt_wf left ->
  deltas_wf deltas left ->
  exists out,
    _enforce_gauge_conditions deltas left = Ok out
    /\ Forall2 (fun o d => shape o = shape d) out deltas
    /\ (forall i c d p r2,
           i < ndims left - 1 ->
           nth_error (tt_cores left) i = Some c ->
           nth_error deltas i = Some d ->
           core_dims (is_tt_matrix left) (shape c) = Some (p, r2) ->
           nth_error out i
           = Some {| shape := shape d;
                     data := tabulate2 p r2
                               (orth_complement p r2 (as_matrix r2 c)
                                                (as_matrix r2 d)) |})
    /\ nth_error out (ndims left - 1) = nth_error deltas (ndims left - 1).
Proof.
  intros Hleft Hdeltas.
  pose proof (Forall2_length Hdeltas) as Hlen.
  exists (map (projected_delta deltas left) (seq 0 (ndims left))).
  split; [now apply enforce_gauge_by_index|].
  split; [|split].
  - unfold ndims. rewrite <- Hlen. apply Forall2_map_seq.
    intros i d Hd. simpl. unfold projected_delta.
    rewrite (nth_error_nth _ _ _ Hd).
    destruct (i <? _); [|reflexivity].
    now destruct (core_dims _ _) as [[p r2]|].
  - intros i c d p r2 Hi Hc Hd Hdims.
    rewrite nth_error_map, nth_error_seq.
    replace (i <? ndims left) with true by (symmetry; apply Nat.ltb_lt; lia).
    simpl. unfold projected_delta.
    rewrite (nth_error_nth _ _ _ Hc), (nth_error_nth _ _ _ Hd).
    apply Nat.ltb_lt in Hi. now rewrite Hi, Hdims.
  - destruct (ndims left) as [|n] eqn:En.
    + simpl. unfold ndims in En. rewrite En in Hlen.
      destruct deltas; [reflexivity|discriminate].
    + rewrite nth_error_map, nth_error_seq.
      replace (S n - 1 <? S n) with true by (symmetry; apply Nat.ltb_lt; lia).
      simpl. unfold projected_delta. rewrite En.
      rewrite Nat.ltb_irrefl.
      destruct (nth_error deltas (S n - 1)) as [d|] eqn:Hd.
      * now rewrite (nth_error_nth _ _ _ Hd).
      * apply nth_error_None in Hd. unfold ndims in En. lia.
Qed.

End GaugeCorrect.

(** ** Gauge orthogonality in exact arithmetic *)

Section GaugeOrthogonal.
Context {T : Type} {ST : Scalar T}.
Variable dopp : T -> T.
Hypothesis scalar_ring : ring_theory dzero dunit dadd dmul dsub dopp eq.

Add Ring scalar_ring_inst : scalar_ring.

Lemma sum_upto_zero (k : nat) : sum_upto k (fun _ => dzero) = dzero.
Proof.
  induction k as [|k IH]; [reflexivity|]. rewrite sum_upto_S, IH. ring.
Qed.

Lemma sum_upto_add (k : nat) (f g : nat -> T) :
  sum_upto k (fun l => dadd (f l) (g l)) = dadd (sum_upto k f) (sum_upto k g).
Proof.
  induction k as [|k IH]; [unfold sum_upto; simpl; ring|].
  rewrite !sum_upto_S, IH. ring.
Qed.

Lemma sum_upto_sub (k : nat) (f g : nat -> T) :
  sum_upto k (fun l => dsub (f l) (g l)) = dsub (sum_upto k f) (sum_upto k g).
Proof.
  induction k as [|k IH]; [unfold sum_upto; simpl; ring|].
  rewrite !sum_upto_S, IH. ring.
Qed.

Lemma sum_upto_scale_l (k : nat) (c : T) (f : nat -> T) :
  sum_upto k (fun l => dmul c (f l)) = dmul c (sum_upto k f).
Proof.
  induction k as [|k IH]; [unfold sum_upto; simpl; ring|].
  rewrite !sum_upto_S, IH. ring.
Qed.

Lemma sum_upto_scale_r (k : nat) (c : T) (f : nat -> T) :
  sum_upto k (fun l => dmul (f l) c) = dmul (sum_upto k f) c.
Proof.
  induction k as [|k IH]; [unfold sum_upto; simpl; ring|].
  rewrite !sum_upto_S, IH. ring.
Qed.

Lemma sum_upto_swap (m n : nat) (f : nat -> nat -> T) :
  sum_upto m (fun i => sum_upto n (fun j => f i j))
  = sum_upto n (fun j => sum_upto m (fun i => f i j)).
Proof.
  induction m as [|m IH].
  - rewrite (@sum_upto_ext _ _ n _ (fun _ => dzero)) by reflexivity.
    now rewrite sum_upto_zero.
  - rewrite sum_upto_S, IH, <- sum_upto_add.
    apply sum_upto_ext. intros j _. now rewrite sum_upto_S.
Qed.

(** Summing against a Kronecker delta selects one term. *)
Lemma sum_upto_select (k j : nat) (f : nat -> T) :
  j < k ->
  sum_upto k (fun l => dmul (if j =? l then dunit else dzero) (f l)) = f j.
Proof.
  induction k as [|k IH]; intro Hj; [lia|].
  rewrite sum_upto_S.
  destruct (Nat.eq_dec j k) as [->|Hne].
  - rewrite Nat.eqb_refl.
    rewrite (@sum_upto_ext _ _ k _ (fun _ => dzero)).
    + rewrite sum_upto_zero. ring.
    + intros l Hl. destruct (Nat.eqb_spec k l); [lia|ring].
  - rewrite IH by lia. destruct (Nat.eqb_spec j k); [contradiction|ring].
Qed.

(** [Q] has orthonormal columns: [Q^T Q = I]. *)
Definition orthonormal_columns (p r2 : nat) (Q : nat -> nat -> T) : Prop :=
  forall l l', l < r2 -> l' < r2 ->
    mat_mul p (mat_T Q) Q l l' = if l =? l' then dunit else dzero.

(** [Q^T (delta - Q (Q^T delta)) = 0] when [Q^T Q = I]. *)
Lemma orth_complement_orthogonal (p r2 : nat) (Q delta : nat -> nat -> T) :
  orthonormal_columns p r2 Q ->
  forall l b, l < r2 ->
    mat_mul p (mat_T Q) (orth_complement p r2 Q delta) l b = dzero.
Proof.
  intros HQ l b Hl.
  unfold orth_complement, mat_sub, mat_mul, mat_T.
  rewrite (@sum_upto_ext _ _ p _
             (fun m => dsub (dmul (Q m l) (delta m b))
                            (sum_upto r2 (fun l' =>
                               dmul (dmul (Q m l) (Q m l'))
                                    (sum_upto p (fun m' => dmul (Q m' l') (delta m' b))))))).
  2:{ intros m _.
      rewrite (@sum_upto_ext _ _ r2
                 (fun l' => dmul (dmul (Q m l) (Q m l'))
                    (sum_upto p (fun m' => dmul (Q m' l') (delta m' b))))
                 (fun l' => dmul (Q m l) (dmul (Q m l')
                    (sum_upto p (fun m' => dmul (Q m' l') (delta m' b))))))
        by (intros; ring).
      rewrite sum_upto_scale_l. ring. }
  rewrite sum_upto_sub, sum_upto_swap.
  rewrite (@sum_upto_ext _ _ r2 _
             (fun l' => dmul (if l =? l' then dunit else dzero)
                             (sum_upto p (fun m' => dmul (Q m' l') (delta m' b))))).
  2:{ intros l' Hl'. rewrite sum_upto_scale_r. f_equal.
      exact (HQ l l' Hl Hl'). }
  rewrite sum_upto_select by exact Hl. ring.
Qed.

End GaugeOrthogonal.

(** ** Gauge orthogonality of the projector's output *)

Section GaugeOrthogonality.
Context {T : Type} {ST : Scalar T}.

(** The claim C4 as the specification states it, in the arithmetic of the
    dtype, at a delta list and a TT object: wherever a core [i] before the
    last, seen as the matrix [Q_i], has orthonormal columns, the entries of
    [Q_i^T delta_i'] are below [tol] in magnitude, [delta_i'] being the
    [i]-th delta the projector returns. *)
Definition gauge_orthogonal_within (tol : T) (deltas : list (Tensor T))
           (left : TensorTrain T) : Prop :=
  forall i p r2 c out o,
    i < ndims left - 1 ->
    nth_error (tt_cores left) i = Some c ->
    core_dims (is_tt_matrix left) (shape c) = Some (p, r2) ->
    orthonormal_columns p r2 (as_matrix r2 c) ->
    _enforce_gauge_conditions deltas left = Ok out ->
    nth_error out i = Some o ->
    forall l b, l < r2 -> b < r2 ->
      dlt (dabs (mat_mul p (mat_T (as_matrix r2 c)) (as_matrix r2 o) l b)) tol = true.

(** C4, amended.  When the arithmetic of the scalars is exact, that is when
    it obeys the laws of a commutative ring (as the arithmetic of the real
    numbers does, and as floating-point arithmetic does not): for every core
    index [i] strictly before the last and every delta list shaped like the
    cores of [left], if core [i] of [left], seen as the matrix [Q_i] with
    [r2] columns, has orthonormal columns ([Q_i^T Q_i = I]), then the [i]-th
    output [delta_i'] of [_enforce_gauge_conditions], seen as a matrix with
    [r2] columns, satisfies [Q_i^T delta_i' = 0]: every entry is exactly
    zero, and so its magnitude is below every tolerance that zero is below,
    [1e-6] included.  In binary64, an arithmetic the program runs on, the
    bound [1e-6] fails at some deltas: the example of section
    [Binary64Gauge] has an entry [0.5]. *)
Theorem gauge_orthogonality (dopp : T -> T) (deltas : list (Tensor T))
        (left : TensorTrain T) (i p r2 : nat) (c : Tensor T) :
  ring_theory dzero dunit dadd dmul dsub dopp eq ->
  tt_wf left ->
  deltas_wf deltas left ->
  i < ndims left - 1 ->
  nth_error (tt_cores left) i = Some c ->
  core_dims (is_tt_matrix left) (shape c) = Some (p, r2) ->
  orthonormal_columns p r2 (as_matrix r2 c) ->
  exists out o,
    _enforce_gauge_conditions deltas left = Ok out
    /\ nth_error out i = Some o
    /\ forall l b, l < r2 -> b < r2 ->
         let e := mat_mul p (mat_T (as_matrix r2 c)) (as_matrix r2 o) l b in
         e = dzero
         /\ forall tol, dlt (dabs dzero) tol = true -> dlt (dabs e) tol = true.
Proof.
  intros Hring Hleft Hdeltas Hi Hc Hdims HQ.
  pose proof (Forall2_length Hdeltas) as Hlen.
  destruct (nth_error deltas i) as [d|] eqn:Hd;
    [|apply nth_error_None in Hd; unfold ndims in Hi; lia].
  exists (map (projected_delta deltas left) (seq 0 (ndims left))).
  exists (projected_delta deltas left i).
  split; [now apply enforce_gauge_by_index|].
  split.
  - rewrite nth_error_map, nth_error_seq.
    replace (i <? ndims left) with true by (symmetry; apply Nat.ltb_lt; lia).
    reflexivity.
  - intros l b Hl Hb e.
    assert (E : e = dzero).
    { subst e. unfold projected_delta.
      rewrite (nth_error_nth _ _ _ Hc), (nth_error_nth _ _ _ Hd).
      apply Nat.ltb_lt in Hi. rewrite Hi, Hdims.
      etransitivity;
        [|exact (@orth_complement_orthogonal T ST dopp Hring p r2
                   (as_matrix r2 c) (as_matrix r2 d) HQ l b Hl)].
      unfold mat_mul. apply sum_upto_ext. intros m Hm. f_equal.
      unfold as_matrix at 1. simpl.
      now rewrite at2_tabulate2. }
    split; [exact E|]. intros tol Htol. now rewrite E.
Qed.

End GaugeOrthogonality.

(** ** Running the orchestrators *)

Section OrchestratorFacts.
Context {T : Type} {ST : Scalar T} {HT : Host T}.
Local Open Scope graph_scope.

Definition left_of (x : TensorTrain T) : TensorTrain T :=
  orthogonalize_tt_cores x true.

Definition right_of (x : TensorTrain T) : TensorTrain T :=
  orthogonalize_tt_cores (left_of x) false.

(** The assertion built by the checker from two input values, created
    with no control dependency in force. *)
Definition check (v1 v2 : T) : AssertOp T :=
  mkAssert (dlt (dabs (ddiv (dsub v1 v2) v1)) d1em5) err_msg (v1, v2)
           "check_autodiff_arguments"%string.

Lemma checker_builds (f1 f2 : Node T T) (name : string) (out : list string) :
  guards f1 = [] -> guards f2 = [] ->
  _is_invariant_to_input_transforms f1 f2 name [] out
  = Ok ({| value := mkAssert (dlt (dabs (ddiv (dsub (value f1) (value f2)) (value f1))) d1em5)
                             err_msg (value f1, value f2) name;
           guards := [] |}, out ++ [warning]).
Proof.
  intros E1 E2.
  unfold _is_invariant_to_input_transforms, bindG, print, op2, op1, op.
  simpl. now rewrite E1, E2.
Qed.

(** The prologue, run with no control dependency in force. *)
Definition prologue_of (func : TensorTrain T -> T) (x : TensorTrain T)
           (debug : bool) (deltas0 : list (Tensor T)) : prologue :=
  let x_projection := deltas_to_tangent_space deltas0 x (left_of x) (right_of x) in
  {| p_left := input (left_of x);
     p_right := input (right_of x);
     p_deltas := input deltas0;
     p_x_projection := input x_projection;
     p_function_value := input (func x_projection);
     p_assert_op :=
       if debug
       then Some (input (check (func x_projection) (func (right_of x))))
       else None |}.

Lemma start_builds (func : TensorTrain T -> T) (x : TensorTrain T)
      (debug : bool) (out : list string) :
  start func (input x) debug [] out
  = match initial_deltas (right_of x) with
    | Ok deltas0 =>
        Ok (prologue_of func x debug deltas0,
            if debug then out ++ [warning] else out)
    | Raise e => Raise e
    end.
Proof.
  unfold start, bindG, op1, op, lift, encode_op. simpl.
  fold (left_of x). fold (right_of x).
  destruct (initial_deltas (right_of x)) as [deltas0|e]; [|reflexivity].
  destruct debug; reflexivity.
Qed.

Lemma initial_deltas_ok (right : TensorTrain T) (c : Tensor T) (cs : list (Tensor T)) :
  tt_cores right = c :: cs ->
  initial_deltas right = Ok (c :: map zeros_like cs).
Proof. intro E. unfold initial_deltas, index. now rewrite E. Qed.

Lemma initial_deltas_inv (right : TensorTrain T) (deltas0 : list (Tensor T)) :
  initial_deltas right = Ok deltas0 ->
  exists c cs, tt_cores right = c :: cs /\ deltas0 = c :: map zeros_like cs.
Proof.
  unfold initial_deltas, index.
  destruct (tt_cores right) as [|c cs]; simpl; [discriminate|].
  intro E. inversion E. now exists c, cs.
Qed.

(** The assertions the result depends on. *)
Definition checks_of (func : TensorTrain T -> T) (x : TensorTrain T)
           (debug : bool) (deltas0 : list (Tensor T)) : list (AssertOp T) :=
  if debug
  then [check (func (deltas_to_tangent_space deltas0 x (left_of x) (right_of x)))
              (func (right_of x))]
  else [].

(** The control inputs [[assert_op]] are accepted. *)
Definition control_ok (debug : bool) : bool :=
  debug || accepts_none_control_input.

Definition first_pass (func : TensorTrain T -> T) (x : TensorTrain T)
           (deltas0 : list (Tensor T)) : list (Tensor T) :=
  tf_gradients (value_at func x (left_of x) (right_of x)) deltas0.

Lemma gradients_builds (func : TensorTrain T -> T) (x : TensorTrain T)
      (debug : bool) :
  build (gradients_body func x debug)
  = match initial_deltas (right_of x) with
    | Raise e => Raise e
    | Ok deltas0 =>
        if control_ok debug then
          match _enforce_gauge_conditions (first_pass func x deltas0) (left_of x) with
          | Raise e => Raise e
          | Ok projected =>
              let checks := checks_of func x debug deltas0 in
              Ok ({| g_start := prologue_of func x debug deltas0;
                     g_cores_grad := mkNode (first_pass func x deltas0) checks;
                     g_deltas := mkNode projected checks;
                     g_return :=
                       mkNode (deltas_to_tangent_space projected x (left_of x) (right_of x))
                              checks |},
                  if debug then [warning] else [])
          end
        else Raise TypeError
    end.
Proof.
  unfold build, gradients_body, bindG. rewrite start_builds.
  destruct (initial_deltas (right_of x)) as [deltas0|e]; [|reflexivity].
  unfold control_ok, control_dependencies, checks_of, first_pass, gauge_op,
    encode_op, bindG, lift, op, ret.
  destruct debug; simpl.
  - destruct (_enforce_gauge_conditions _ _); reflexivity.
  - destruct accepts_none_control_input; simpl; [|reflexivity].
    destruct (_enforce_gauge_conditions _ _); reflexivity.
Qed.

Definition vec_deltas_of (x vector : TensorTrain T) : list (Tensor T) :=
  tangent_space_to_deltas (project vector x).

Definition second_pass (func : TensorTrain T -> T) (x vector : TensorTrain T)
           (deltas0 : list (Tensor T)) : list (Tensor T) :=
  tf_gradients (directional func x (left_of x) (right_of x) (vec_deltas_of x vector))
               deltas0.

Lemma hvp_builds (func : TensorTrain T -> T) (x vector : TensorTrain T)
      (debug : bool) :
  build (hvp_body func x vector debug)
  = match initial_deltas (right_of x) with
    | Raise e => Raise e
    | Ok deltas0 =>
        if control_ok debug then
          match grad_times_vec_of (first_pass func x deltas0) (vec_deltas_of x vector) with
          | Raise e => Raise e
          | Ok gtv =>
              match _enforce_gauge_conditions (second_pass func x vector deltas0)
                                              (left_of x) with
              | Raise e => Raise e
              | Ok final =>
                  let checks := checks_of func x debug deltas0 in
                  Ok ({| h_start := prologue_of func x debug deltas0;
                         h_vector_projected := mkNode (project vector x) checks;
                         h_cores_grad := mkNode (first_pass func x deltas0) [];
                         h_vec_deltas := mkNode (vec_deltas_of x vector) checks;
                         h_grad_times_vec := mkNode gtv checks;
                         h_second_cores_grad :=
                           mkNode (second_pass func x vector deltas0) checks;
                         h_final_deltas := mkNode final checks;
                         h_return :=
                           mkNode (deltas_to_tangent_space final x (left_of x) (right_of x))
                                  checks |},
                      if debug then [warning] else [])
              end
          end
        else Raise TypeError
    end.
Proof.
  unfold build, hvp_body, bindG. rewrite start_builds.
  destruct (initial_deltas (right_of x)) as [deltas0|e]; [|reflexivity].
  unfold control_ok, control_dependencies, checks_of, first_pass, second_pass,
    vec_deltas_of, gauge_op, encode_op, bindG, lift, op2, op1, op, ret.
  destruct debug; simpl.
  - destruct (grad_times_vec_of _ _); [|reflexivity].
    destruct (_enforce_gauge_conditions _ _); reflexivity.
  - destruct accepts_none_control_input; simpl; [|reflexivity].
    destruct (grad_times_vec_of _ _); [|reflexivity].
    destruct (_enforce_gauge_conditions _ _); reflexivity.
Qed.

End OrchestratorFacts.

(** ** The ordering of the invariance check *)

Section Ordering.
  Context {T : Type} {ST : Scalar T} {HT : Host T}.

Lemma run_unguarded {A : Type} (n : Node T A) :
  guards n = [] -> run n = Value (value n).
Proof. intro E. unfold run. now rewrite E. Qed.

Lemma run_single {A : Type} (n : Node T A) (a : AssertOp T) :
  guards n = [a] ->
  run n = if condition a then Value (value n)
          else InvalidArgumentError (assert_message a) (assert_values a).
Proof. intro E. unfold run. rewrite E. simpl. now destruct (condition a). Qed.

Lemma gradients_build_return (func : TensorTrain T -> T) (x : TensorTrain T)
      (debug : bool) :
  build (gradients func x debug)
  = match build (gradients_body func x debug) with
    | Ok (l, out) => Ok (g_return l, out)
    | Raise e => Raise e
    end.
Proof.
  unfold build, gradients, bindG, ret.
  now destruct (gradients_body func x debug [] []) as [[l out]|e].
Qed.

Lemma hvp_build_return (func : TensorTrain T -> T) (x vector : TensorTrain T)
      (debug : bool) :
  build (hessian_vector_product func x vector debug)
  = match build (hvp_body func x vector debug) with
    | Ok (l, out) => Ok (h_return l, out)
    | Raise e => Raise e
    end.
Proof.
  unfold build, hessian_vector_product, bindG, ret.
  now destruct (hvp_body func x vector debug [] []) as [[l out]|e].
Qed.

(** The claim C2 as the specification states it, for
    [hessian_vector_product]: with [debug] enabled, a failing assertion
    keeps the first differentiation pass from producing a result. *)
Definition first_pass_waits_for_check (func : TensorTrain T -> T)
           (x vector : TensorTrain T) : Prop :=
  forall l out a,
    build (hvp_body func x vector true) = Ok (l, out) ->
    p_assert_op (h_start l) = Some a ->
    condition (value a) = false ->
    forall grads, run (h_cores_grad l) <> Value grads.

(** C2, amended.  With [debug] enabled and the graph built: in [gradients]
    the checker's assertion is a control dependency of the first
    differentiation pass, and the projected deltas and the tangent vector
    returned depend on it through that pass; in [hessian_vector_product] it
    is a control dependency of the projection of [vector], not of the first
    differentiation pass, which depends on no assertion, and the tangent
    vector returned depends on it through the decoded projection.  In both
    operations a failing check therefore keeps the returned tangent vector
    from being evaluated: evaluating it fails with the assertion's error. *)
Theorem check_precedes_result (func : TensorTrain T -> T) (x vector : TensorTrain T)
        (deltas0 : list (Tensor T)) :
  initial_deltas (right_of x) = Ok deltas0 ->
  let v1 := func (deltas_to_tangent_space deltas0 x (left_of x) (right_of x)) in
  let v2 := func (right_of x) in
  let a := check v1 v2 in
  (forall projected,
      _enforce_gauge_conditions (first_pass func x deltas0) (left_of x) = Ok projected ->
      exists l out,
        build (gradients_body func x true) = Ok (l, out)
        /\ p_assert_op (g_start l) = Some (input a)
        /\ guards (g_cores_grad l) = [a]
        /\ guards (g_return l) = [a]
        /\ (condition a = false ->
            run (g_cores_grad l) = InvalidArgumentError err_msg (v1, v2)
            /\ run (g_return l) = InvalidArgumentError err_msg (v1, v2)))
  /\ (forall gtv final,
      grad_times_vec_of (first_pass func x deltas0) (vec_deltas_of x vector) = Ok gtv ->
      _enforce_gauge_conditions (second_pass func x vector deltas0) (left_of x) = Ok final ->
      exists l out,
        build (hvp_body func x vector true) = Ok (l, out)
        /\ p_assert_op (h_start l) = Some (input a)
        /\ guards (h_vector_projected l) = [a]
        /\ guards (h_cores_grad l) = []
        /\ guards (h_return l) = [a]
        /\ run (h_cores_grad l) = Value (first_pass func x deltas0)
        /\ (condition a = false ->
            run (h_vector_projected l) = InvalidArgumentError err_msg (v1, v2)
            /\ run (h_return l) = InvalidArgumentError err_msg (v1, v2))).
Proof.
  intros Hd v1 v2 a. split.
  - intros projected Hp.
    rewrite gradients_builds, Hd. simpl. rewrite Hp.
    eexists; eexists; split; [reflexivity|]. simpl.
    repeat split; try reflexivity; unfold run; simpl;
      fold v1; fold v2; now rewrite H.
  - intros gtv final Hg Hf.
    rewrite hvp_builds, Hd. simpl. rewrite Hg, Hf.
    eexists; eexists; split; [reflexivity|]. simpl.
    repeat split; try reflexivity; unfold run; simpl;
      fold v1; fold v2; now rewrite H.
Qed.

End Ordering.

(** ** The initial deltas *)

Section InitialDeltas.
  Context {T : Type} {ST : Scalar T} {HT : Host T}.

(** Modelled from the spec: the delta configuration [[right.core[0], 0, 0,
    ...]] of the data model (section 3) and of step 2 of the orchestrators:
    the first core of [right], then one zero tensor per remaining core of
    [right], of that core's shape. *)
Definition zero_tangent_config (right : TensorTrain T) (deltas : list (Tensor T))
  : Prop :=
  exists c cs zs,
    tt_cores right = c :: cs
    /\ deltas = c :: zs
    /\ Forall2 (fun zero core =>
                  shape zero = shape core
                  /\ length (data zero) = length (data core)
                  /\ Forall (eq dzero) (data zero)) zs cs.

(** Modelled from the spec: the contract of the codec's [encode], which is
    [riemannian.deltas_to_tangent_space] and is not under [src/]: "When
    deltas equal [[right.core[0], 0, 0, ...]], encode returns x" (section
    4.2), at the point [x] and its orthogonal pair.  [same_value] is the
    equality of the tensors two TT objects represent. *)
Definition encode_returns_point
           (same_value : TensorTrain T -> TensorTrain T -> Prop)
           (x left right : TensorTrain T) : Prop :=
  forall deltas,
    zero_tangent_config right deltas ->
    same_value (deltas_to_tangent_space deltas x left right) x.

Lemma zeros_like_config (cs : list (Tensor T)) :
  Forall2 (fun zero core =>
             shape zero = shape core
             /\ length (data zero) = length (data core)
             /\ Forall (eq dzero) (data zero)) (map zeros_like cs) cs.
Proof.
  induction cs as [|c cs IH]; simpl; constructor; [|exact IH].
  unfold zeros_like; simpl. rewrite repeat_length.
  repeat split. apply Forall_forall. intros e He.
  symmetry. eapply repeat_spec; exact He.
Qed.

(** C7.  When [right] has a core, the prologue that [gradients] and
    [hessian_vector_product] both run builds the delta list
    [[right.tt_cores[0]]] followed by [tf.zeros_like] of every remaining
    core of [right]: the configuration [[right.core[0], 0, 0, ...]], one
    tensor per core and each of its core's shape.  Under the codec's
    contract, the [x_projection] encoded from these deltas has the value of
    [x].  Every graph either orchestrator builds starts from this prologue. *)
Theorem initial_deltas_encode_x
        (same_value : TensorTrain T -> TensorTrain T -> Prop)
        (func : TensorTrain T -> T) (x vector : TensorTrain T) (debug : bool)
        (c : Tensor T) (cs : list (Tensor T)) :
  tt_cores (right_of x) = c :: cs ->
  encode_returns_point same_value x (left_of x) (right_of x) ->
  let deltas0 := c :: map zeros_like cs in
  (exists out, start func (input x) debug [] []
               = Ok (prologue_of func x debug deltas0, out))
  /\ zero_tangent_config (right_of x) deltas0
  /\ Forall2 (fun d core => shape d = shape core) deltas0 (tt_cores (right_of x))
  /\ same_value (value (p_x_projection (prologue_of func x debug deltas0))) x
  /\ (forall l out, build (gradients_body func x debug) = Ok (l, out) ->
        g_start l = prologue_of func x debug deltas0)
  /\ (forall l out, build (hvp_body func x vector debug) = Ok (l, out) ->
        h_start l = prologue_of func x debug deltas0).
Proof.
  intros Hc Henc deltas0.
  pose proof (initial_deltas_ok _ Hc) as Hd. fold deltas0 in Hd.
  assert (Hcfg : zero_tangent_config (right_of x) deltas0).
  { exists c, cs, (map zeros_like cs). repeat split; try assumption.
    apply zeros_like_config. }
  split; [|split; [exact Hcfg|split; [|split; [|split]]]].
  - rewrite start_builds, Hd. eexists; reflexivity.
  - rewrite Hc. subst deltas0. constructor; [reflexivity|].
    clear. induction cs; simpl; constructor; auto.
  - simpl. apply Henc. exact Hcfg.
  - intros l out. rewrite gradients_builds, Hd.
    destruct (control_ok debug); [|discriminate].
    destruct (_enforce_gauge_conditions _ _); [|discriminate].
    intro E. now inversion E.
  - intros l out. rewrite hvp_builds, Hd.
    destruct (control_ok debug); [|discriminate].
    destruct (grad_times_vec_of _ _); [|discriminate].
    destruct (_enforce_gauge_conditions _ _); [|discriminate].
    intro E. now inversion E.
Qed.

End InitialDeltas.

(** ** The directional derivative of the Hessian-vector product *)

Section Directional.
  Context {T : Type} {ST : Scalar T} {HT : Host T}.

Definition tensor_at (l : list (Tensor T)) (i : nat) : Tensor T :=
  nth i l (mkTensor [] []).

(** The specification's step 9, [sum over i of elementwise_sum(grad1[i] *
    vec_deltas[i])], over the [n] core indices. *)
Definition elementwise_sum (a b : Tensor T) : T :=
  sum_upto (length (data a))
           (fun k => dmul (nth k (data a) dzero) (nth k (data b) dzero)).

Definition sum_list (l : list T) : T :=
  match l with
  | [] => dzero
  | p :: ps => fold_left dadd ps p
  end.

Definition spec_directional (n : nat) (grad1 vec_deltas : list (Tensor T)) : T :=
  sum_list (map (fun i => elementwise_sum (tensor_at grad1 i) (tensor_at vec_deltas i))
                (seq 0 n)).

(** [t] has the shape of [u], and as many entries as its shape says. *)
Definition like (t u : Tensor T) : Prop := shape t = shape u /\ tensor_wf t.

Definition all_like (ts us : list (Tensor T)) : Prop := Forall2 like ts us.

Lemma fold_left_dadd_map {A : Type} (f : A -> T) (l : list A) (z : T) :
  fold_left dadd (map f l) z = fold_left (fun acc x => dadd acc (f x)) l z.
Proof.
  revert z. induction l as [|x l IH]; intro z; simpl; [reflexivity|]. apply IH.
Qed.

Lemma zip_with_by_index (f : T -> T -> T) (xs ys : list T) :
  length xs = length ys ->
  zip_with f xs ys
  = map (fun k => f (nth k xs dzero) (nth k ys dzero)) (seq 0 (length xs)).
Proof.
  revert ys. induction xs as [|x xs IH]; intros [|y ys] E; simpl in *;
    try discriminate; [reflexivity|].
  f_equal. rewrite <- seq_shift, map_map. apply IH. lia.
Qed.

Lemma reduce_sum_mul (a b : Tensor T) :
  shape a = shape b ->
  length (data a) = length (data b) ->
  (t <- tensor_mul a b ;; Ok (reduce_sum t))%py = Ok (elementwise_sum a b).
Proof.
  intros Es El. unfold tensor_mul. rewrite Es, shape_eqb_refl. simpl.
  unfold reduce_sum, elementwise_sum, sum_upto. simpl.
  now rewrite (zip_with_by_index _ _ _ El), fold_left_dadd_map.
Qed.

Lemma like_same_length (a b c : Tensor T) :
  like a c -> like b c -> shape a = shape b /\ length (data a) = length (data b).
Proof.
  intros [Ea Wa] [Eb Wb]. unfold tensor_wf in *. split; congruence.
Qed.

Lemma products_by_index (g v us : list (Tensor T)) :
  all_like g us -> all_like v us ->
  products g v
  = Ok (map (fun i => elementwise_sum (tensor_at g i) (tensor_at v i))
            (seq 0 (length us))).
Proof.
  unfold products, tensor_at. intros Hg. revert v.
  induction Hg as [|a u g us Hau Hg IH]; intros v Hv; inversion Hv as [|b u' v' us' Hbu Hv']; subst.
  - reflexivity.
  - simpl.
    destruct (like_same_length Hau Hbu) as [Es El].
    rewrite (reduce_sum_mul _ _ Es El). simpl.
    rewrite (IH _ Hv'). simpl. now rewrite <- seq_shift, map_map.
Qed.

Lemma grad_times_vec_by_index (g v us : list (Tensor T)) :
  us <> [] -> all_like g us -> all_like v us ->
  grad_times_vec_of g v = Ok (spec_directional (length us) g v).
Proof.
  intros Hne Hg Hv. unfold grad_times_vec_of.
  rewrite (products_by_index Hg Hv). simpl.
  unfold spec_directional. destruct us as [|u us]; [contradiction|]. reflexivity.
Qed.

Lemma initial_deltas_like (right : TensorTrain T) (deltas0 : list (Tensor T)) :
  initial_deltas right = Ok deltas0 ->
  Forall tensor_wf (tt_cores right) ->
  deltas0 <> [] /\ length deltas0 = ndims right /\ all_like deltas0 deltas0.
Proof.
  intros Hd Hwf.
  destruct (initial_deltas_inv _ Hd) as (c & cs & Hc & ->).
  unfold ndims. rewrite Hc in *. simpl. rewrite length_map.
  split; [discriminate|]. split; [reflexivity|].
  inversion Hwf as [|c' cs' Hwc Hwcs]; subst.
  constructor; [now split|].
  clear Hc Hd Hwf Hwc. induction Hwcs as [|k cs Hk _ IH]; simpl; constructor.
  - split; [reflexivity|]. unfold tensor_wf, zeros_like in *. simpl.
    now rewrite repeat_length.
  - exact IH.
Qed.

(** C6.  For a point with a core and well-formed cores, when the control
    inputs are accepted and the collaborators keep their shape contracts
    (the first gradient has the shapes of the deltas it is taken at, the
    decoded projection of [vector] and the second gradient have the shapes
    of the deltas): [hessian_vector_product] returns the encoding of
    [_enforce_gauge_conditions], with [left], of the gradient with respect
    to the deltas of a scalar function [D] of the deltas, and at every
    delta list [d], [D d] is the sum over all core indices [i] of the
    elementwise sum of [grad1[i] * vec_deltas[i]], where [grad1] is the
    gradient of the function value at [d]: a second differentiation of the
    directional derivative, with no Hessian matrix formed. *)
Theorem hvp_differentiates_directional_derivative
        (func : TensorTrain T -> T) (x vector : TensorTrain T) (debug : bool)
        (deltas0 : list (Tensor T)) :
  initial_deltas (right_of x) = Ok deltas0 ->
  control_ok debug = true ->
  Forall tensor_wf (tt_cores (right_of x)) ->
  tt_wf (left_of x) ->
  (forall d, all_like d deltas0 -> all_like (first_pass func x d) deltas0) ->
  all_like (vec_deltas_of x vector) deltas0 ->
  deltas_wf (second_pass func x vector deltas0) (left_of x) ->
  let D := directional func x (left_of x) (right_of x) (vec_deltas_of x vector) in
  exists final n out,
    _enforce_gauge_conditions (tf_gradients D deltas0) (left_of x) = Ok final
    /\ build (hessian_vector_product func x vector debug) = Ok (n, out)
    /\ value n = deltas_to_tangent_space final x (left_of x) (right_of x)
    /\ forall d, all_like d deltas0 ->
         D d = spec_directional (ndims (right_of x)) (first_pass func x d)
                                (vec_deltas_of x vector).
Proof.
  intros Hd Hctl Hright Hleft Hg1 Hv Hg2 D.
  destruct (initial_deltas_like _ Hd Hright) as (Hne & Hlen & Hdd).
  pose proof (enforce_gauge_by_index Hleft Hg2) as Hgauge.
  fold (second_pass func x vector deltas0). unfold second_pass in Hgauge.
  fold D in Hgauge.
  eexists; eexists; eexists. split; [exact Hgauge|].
  assert (HD : forall d, all_like d deltas0 ->
             grad_times_vec_of (first_pass func x d) (vec_deltas_of x vector)
             = Ok (spec_directional (ndims (right_of x)) (first_pass func x d)
                                    (vec_deltas_of x vector))).
  { intros d Hdl. rewrite <- Hlen.
    apply grad_times_vec_by_index; [exact Hne|now apply Hg1|exact Hv]. }
  split; [|split].
  - rewrite hvp_build_return, hvp_builds, Hd, Hctl, (HD _ Hdd).
    unfold second_pass. fold D. rewrite Hgauge. reflexivity.
  - reflexivity.
  - intros d Hdl. unfold D, directional.
    fold (first_pass func x d). now rewrite (HD _ Hdl).
Qed.

End Directional.

(** ** Evaluating the orchestrators' results *)

Section Evaluation.
  Context {T : Type} {ST : Scalar T} {HT : Host T}.

(** Evaluating an assertion: what it depends on, then its own condition. *)
Definition run_assert (n : Node T (AssertOp T)) : outcome T unit :=
  run {| value := tt; guards := guards n ++ [value n] |}.

Lemma gradients_runs (func : TensorTrain T -> T) (x : TensorTrain T) (debug : bool)
      (deltas0 projected : list (Tensor T)) :
  initial_deltas (right_of x) = Ok deltas0 ->
  _enforce_gauge_conditions (first_pass func x deltas0) (left_of x) = Ok projected ->
  let v1 := func (deltas_to_tangent_space deltas0 x (left_of x) (right_of x)) in
  let v2 := func (right_of x) in
  let tangent := deltas_to_tangent_space projected x (left_of x) (right_of x) in
  session_run (gradients func x debug)
  = if debug then
      Returned (if condition (check v1 v2) then Value tangent
                else InvalidArgumentError err_msg (v1, v2))
    else if accepts_none_control_input then Returned (Value tangent)
         else Raised _ TypeError.
Proof.
  intros Hd Hp v1 v2 tangent. unfold session_run.
  rewrite gradients_build_return, gradients_builds, Hd.
  unfold control_ok. destruct debug; simpl.
  - rewrite Hp. simpl. unfold run. simpl. fold v1 v2.
    now destruct (dlt _ _).
  - destruct accepts_none_control_input; [|reflexivity].
    now rewrite Hp.
Qed.

Lemma hvp_runs (func : TensorTrain T -> T) (x vector : TensorTrain T) (debug : bool)
      (deltas0 final : list (Tensor T)) (gtv : T) :
  initial_deltas (right_of x) = Ok deltas0 ->
  grad_times_vec_of (first_pass func x deltas0) (vec_deltas_of x vector) = Ok gtv ->
  _enforce_gauge_conditions (second_pass func x vector deltas0) (left_of x) = Ok final ->
  let v1 := func (deltas_to_tangent_space deltas0 x (left_of x) (right_of x)) in
  let v2 := func (right_of x) in
  let tangent := deltas_to_tangent_space final x (left_of x) (right_of x) in
  session_run (hessian_vector_product func x vector debug)
  = if debug then
      Returned (if condition (check v1 v2) then Value tangent
                else InvalidArgumentError err_msg (v1, v2))
    else if accepts_none_control_input then Returned (Value tangent)
         else Raised _ TypeError.
Proof.
  intros Hd Hg Hf v1 v2 tangent. unfold session_run.
  rewrite hvp_build_return, hvp_builds, Hd.
  unfold control_ok. destruct debug; simpl.
  - rewrite Hg, Hf. simpl. unfold run. simpl. fold v1 v2.
    now destruct (dlt _ _).
  - destruct accepts_none_control_input; [|reflexivity].
    now rewrite Hg, Hf.
Qed.

End Evaluation.

(** ** The invariance checker in IEEE 754 arithmetic *)

Section CheckerIEEE.
  Variables prec emax : Z.

(** [|(v1 - v2) / v1|], as the checker computes it. *)
Definition rel_diff (v1 v2 : spec_float) : spec_float :=
  SFabs (SFdiv prec emax (SFsub prec emax v1 v2) v1).

Definition is_zero (v : spec_float) : bool :=
  match v with S754_zero _ => true | _ => false end.


(** Dividing by a zero gives an infinity or no number at all. *)
Lemma rel_diff_of_zero (s : bool) (v2 : spec_float) :
  rel_diff (S754_zero s) v2 = S754_nan
  \/ rel_diff (S754_zero s) v2 = S754_infinity false.
Proof.
  unfold rel_diff.
  destruct v2 as [s2| s2 | |s2 m e]; destruct s; try destruct s2; simpl; auto.
Qed.

Lemma SFltb_nan_l (y : spec_float) : SFltb S754_nan y = false.
Proof. reflexivity. Qed.

Lemma SFltb_pinf_l (y : spec_float) : SFltb (S754_infinity false) y = false.
Proof. destruct y as [s|[|]| |s m e]; reflexivity. Qed.

Lemma SFcompare_swap (x y : spec_float) :
  SFcompare y x = option_map CompOpp (SFcompare x y).
Proof.
  destruct x as [s1|s1| |s1 m1 e1], y as [s2|s2| |s2 m2 e2]; simpl;
    try reflexivity; try (destruct s1; reflexivity);
    try (destruct s2; reflexivity); try (destruct s1, s2; reflexivity).
  destruct s1, s2; simpl; try reflexivity;
    rewrite (Z.compare_antisym e1 e2);
    destruct (e1 ?= e2)%Z; simpl; try reflexivity;
    change (Pos.compare_cont Eq m2 m1) with (Pos.compare m2 m1);
    change (Pos.compare_cont Eq m1 m2) with (Pos.compare m1 m2);
    rewrite (Pos.compare_antisym m1 m2);
    destruct (m1 ?= m2)%positive; reflexivity.
Qed.

(** [x < y] fails exactly when [x] is no number or [y <= x]. *)
Lemma SFltb_false_iff (x y : spec_float) :
  y <> S754_nan ->
  SFltb x y = false <-> (x = S754_nan \/ SFleb y x = true).
Proof.
  intro Hy. unfold SFltb, SFleb. rewrite (SFcompare_swap x y).
  destruct (SFcompare x y) as [[| |]|] eqn:E; simpl; split;
    try (intros; reflexivity); try (intros; discriminate);
    try (intros _; right; reflexivity);
    try (intros [->|H]; [discriminate|discriminate]).
  intros _. left.
  destruct x as [s1|s1| |s1 m1 e1], y as [s2|s2| |s2 m2 e2];
    simpl in E; try discriminate; try reflexivity; try contradiction;
    try (destruct s1; discriminate); try (destruct s2; discriminate).
Qed.

End CheckerIEEE.

Section CheckerClaims.
  Variables prec emax : Z.
  Context {HT : Host spec_float}.

(** The dtype of the section: the format with [prec] and [emax]. *)
#[local] Instance format : Scalar spec_float := IEEE.scalar prec emax.

(** C10.  In every IEEE 754 binary format: when the first function value
    is a zero, the relative difference is an infinity or no number at all,
    so the condition [rel_diff < 1e-5] is false whatever the second value
    is, a zero included, and the assertion fails.  A function that vanishes
    at [x] is thus rejected in debug mode: once their graphs are built,
    evaluating the result of [gradients] or of [hessian_vector_product]
    with [debug] enabled fails with the assertion's error, for a
    representation-invariant function as for any other. *)
Theorem vanishing_value_is_rejected
        (func : TensorTrain spec_float -> spec_float)
        (x vector : TensorTrain spec_float)
        (deltas0 : list (Tensor spec_float)) (s : bool) :
  initial_deltas (right_of x) = Ok deltas0 ->
  func (deltas_to_tangent_space deltas0 x (left_of x) (right_of x)) = S754_zero s ->
  let v1 := S754_zero s in
  let v2 := func (right_of x) in
  (forall v, condition (check v1 v) = false
             /\ run_assert (input (check v1 v))
                = InvalidArgumentError err_msg (v1, v))
  /\ (forall projected,
         _enforce_gauge_conditions (first_pass func x deltas0)
                                   (left_of x) = Ok projected ->
         session_run (gradients func x true)
         = Returned (InvalidArgumentError err_msg (v1, v2)))
  /\ (forall gtv final,
         grad_times_vec_of (first_pass func x deltas0)
                           (vec_deltas_of x vector) = Ok gtv ->
         _enforce_gauge_conditions
           (second_pass func x vector deltas0) (left_of x) = Ok final ->
         session_run (hessian_vector_product func x vector true)
         = Returned (InvalidArgumentError err_msg (v1, v2))).
Proof.
  intros Hd Hzero v1 v2.
  assert (Hc : forall v, condition (check v1 v) = false).
  { intro v.
    change (condition (check v1 v))
      with (SFltb (rel_diff prec emax v1 v) (IEEE.lit_1em5 prec emax)).
    subst v1.
    destruct (rel_diff_of_zero prec emax s v) as [-> | ->];
      [apply SFltb_nan_l | apply SFltb_pinf_l]. }
  split; [|split].
  - intro v. split; [apply Hc|].
    unfold run_assert, run. simpl. specialize (Hc v).
    unfold check in Hc. simpl in Hc. now rewrite Hc.
  - intros projected Hp.
    rewrite (gradients_runs func x true Hd Hp).
    rewrite Hzero. fold v1 v2. now rewrite Hc.
  - intros gtv final Hg Hf.
    rewrite (hvp_runs func x vector true Hd Hg Hf).
    rewrite Hzero. fold v1 v2. now rewrite Hc.
Qed.

(** The claim C5 as the specification states it: the checker fails exactly
    when the relative difference exceeds [1e-5]. *)
Definition fails_iff_exceeds (v1 v2 : spec_float) : Prop :=
  run_assert (input (check v1 v2)) = InvalidArgumentError err_msg (v1, v2)
  <-> dlt d1em5 (dabs (ddiv (dsub v1 v2) v1)) = true.

(** C5, amended.  For a first value that is not a zero, in every IEEE 754
    binary format in which [1e-5] is a number: the checker computes the
    relative difference [|(v1 - v2) / v1|] in the arithmetic of the format
    and asserts that it is below [1e-5]; the assertion fails, with an error
    that carries both values, exactly when the relative difference is not
    strictly below [1e-5], that is when it is at least [1e-5] (equality
    included) or is no number at all; when it is strictly below [1e-5] the
    assertion does not fail. *)
Theorem checker_fails_unless_below (v1 v2 : spec_float) :
  is_zero v1 = false ->
  IEEE.lit_1em5 prec emax <> S754_nan ->
  let a := check v1 v2 in
  let rel := rel_diff prec emax v1 v2 in
  let tol := IEEE.lit_1em5 prec emax in
  condition a = SFltb rel tol
  /\ assert_values a = (v1, v2)
  /\ (run_assert (input a) = InvalidArgumentError err_msg (v1, v2)
      <-> rel = S754_nan \/ SFleb tol rel = true)
  /\ (run_assert (input a) = Value tt <-> SFltb rel tol = true).
Proof.
  intros _ Htol a rel tol.
  split; [reflexivity|]. split; [reflexivity|].
  pose proof (SFltb_false_iff rel Htol) as Hiff. fold tol in Hiff.
  assert (Hrun : run_assert (input a)
                 = if SFltb rel tol then Value tt
                   else InvalidArgumentError err_msg (v1, v2)).
  { unfold run_assert, run. simpl. fold (rel_diff prec emax v1 v2).
    fold rel tol. now destruct (SFltb rel tol). }
  rewrite Hrun.
  destruct (SFltb rel tol) eqn:E; split; split.
  - discriminate.
  - intro H. apply Hiff in H. discriminate.
  - reflexivity.
  - reflexivity.
  - intros _. now apply Hiff.
  - reflexivity.
  - discriminate.
  - discriminate.
Qed.

End CheckerClaims.

(** ** The unfinished block-diagonal variant raises *)

Section BlockDiagonalFacts.
  Context {T : Type} {ST : Scalar T} {HT : Host T}.

Lemma mapM_ok_each {A B : Type} (f : A -> result B) (xs : list A) (ys : list B) :
  mapM f xs = Ok ys -> forall x, In x xs -> exists y, f x = Ok y.
Proof.
  revert ys. induction xs as [|a xs IH]; intros ys E x Hx; [contradiction|].
  simpl in E. destruct (f a) as [b|e] eqn:Ea; [|discriminate].
  simpl in E. destruct (mapM f xs) as [bs|e] eqn:Eb; [|discriminate].
  destruct Hx as [<-|Hx]; [now exists b|]. eapply IH; [reflexivity|exact Hx].
Qed.

(** The module binds neither of the two names. *)
Lemma unbound_names :
  existsb (String.eqb "_gradients") (module_names ++ builtin_names) = false
  /\ existsb (String.eqb "w") (module_names ++ builtin_names) = false
  /\ existsb (String.eqb "w") (("_gradients"%string :: module_names) ++ builtin_names)
     = false.
Proof. repeat split; reflexivity. Qed.

(** C9.  In the namespace of the module, [_block_diag_hessian_vector_product]
    never returns a tangent vector: for a point with a core it raises
    [NameError] on [_gradients], a name the module does not bind (for a
    point with no core it raises earlier).  Were [_gradients] bound, the
    branch taken for a TT-matrix at a core index other than the first
    would still read the unbound name [w]: an iteration that reaches it
    raises [NameError] on [w], so that for a TT-matrix with two cores or
    more the function would not return either.  Its name, with a leading
    underscore, marks it as private. *)
Theorem block_diag_raises_name_error
        (gradients_impl :
           (TensorTrain T -> T) -> TensorTrain T -> TensorTrain T ->
           TensorTrain T -> TensorTrain T -> TensorTrain T)
        (w_impl : TensorTrain T)
        (func : TensorTrain T -> T) (x vector : TensorTrain T) :
  let if_bound := ("_gradients"%string :: module_names) in
  (tt_cores (right_of x) <> [] ->
   _block_diag_hessian_vector_product module_names gradients_impl w_impl func x vector
   = Raise (NameError "_gradients"))
  /\ (forall tangent,
         _block_diag_hessian_vector_product module_names gradients_impl w_impl
                                            func x vector <> Ok tangent)
  /\ (forall x_projection left right vector_deltas grad_deltas i b,
         is_tt_matrix x = true -> i <> 0 ->
         step_prefix gradients_impl func x x_projection left right
                     vector_deltas grad_deltas i = Ok b ->
         block_diag_step if_bound gradients_impl w_impl func x x_projection left right
                         vector_deltas grad_deltas i
         = Raise (NameError "w"))
  /\ (is_tt_matrix x = true -> 2 <= ndims x ->
      forall tangent,
        _block_diag_hessian_vector_product if_bound gradients_impl w_impl
                                           func x vector <> Ok tangent)
  /\ is_private "_block_diag_hessian_vector_product" = true.
Proof.
  intro if_bound.
  assert (Hstep : forall x_projection left right vector_deltas grad_deltas i b,
             is_tt_matrix x = true -> i <> 0 ->
             step_prefix gradients_impl func x x_projection left right
                         vector_deltas grad_deltas i = Ok b ->
             block_diag_step if_bound gradients_impl w_impl func x x_projection
                             left right vector_deltas grad_deltas i
             = Raise (NameError "w")).
  { intros xp left right vd gd i b Hm Hi Hb.
    unfold block_diag_step. rewrite Hb. simpl.
    unfold step_branch. rewrite Hm.
    destruct (Nat.eqb_spec i 0) as [|_]; [contradiction|].
    reflexivity. }
  split; [|split; [|split; [exact Hstep|split; [|reflexivity]]]].
  - intro Hne. unfold _block_diag_hessian_vector_product.
    fold (left_of x). fold (right_of x).
    destruct (tt_cores (right_of x)) as [|c cs] eqn:Hc; [contradiction|].
    now rewrite (initial_deltas_ok _ Hc).
  - intro tangent. unfold _block_diag_hessian_vector_product.
    destruct (initial_deltas _); simpl; discriminate.
  - intros Hm Hn tangent. unfold _block_diag_hessian_vector_product.
    destruct (initial_deltas _) as [deltas|e]; simpl; [|discriminate].
    match goal with
    | |- bind (mapM ?f ?l) _ <> _ => destruct (mapM f l) as [final|e] eqn:E
    end; simpl; [|discriminate].
    exfalso.
    destruct (mapM_ok_each _ _ E 1) as [y Hy]; [apply in_seq; lia|].
    unfold block_diag_step in Hy.
    match type of Hy with
    | bind ?p _ = _ => destruct p as [b|e] eqn:Hb
    end; simpl in Hy; [|discriminate].
    pose proof (Hstep _ _ _ _ _ 1 b Hm ltac:(lia) Hb) as Hw.
    unfold block_diag_step in Hw. rewrite Hb in Hw. simpl in Hw.
    rewrite Hw in Hy. discriminate.
Qed.

End BlockDiagonalFacts.

(** ** The models at concrete points *)

Section ExampleFacts.
  Context {T : Type} {ST : Scalar T}.

(** Central differences return one tensor per target, of the target's
    shape. *)
Lemma central_differences_like (F : list (Tensor T) -> T) (d us : list (Tensor T)) :
  all_like d us -> all_like (Example.central_differences F d) us.
Proof.
  intro H. unfold Example.central_differences.
  assert (G : forall (g : nat -> list T) k,
             (forall i t, nth_error d i = Some t -> length (g (k + i)) = length (data t)) ->
             all_like (map (fun i => {| shape := shape (nth i d (mkTensor [] []));
                                        data := g (k + i) |})
                           (seq 0 (length d))) us).
  { clear F. induction H as [|t u d us [Hs Hw] _ IH]; intros g k Hg; simpl; constructor.
    - split; [exact Hs|]. unfold tensor_wf in *. simpl.
      rewrite (Hg 0 t eq_refl). exact Hw.
    - rewrite <- seq_shift, map_map.
      rewrite (map_ext _ (fun i => {| shape := shape (nth i d (mkTensor [] []));
                                      data := g (S k + i) |}))
        by (intro i; simpl; now rewrite Nat.add_succ_r).
      apply (IH g (S k)).
      intros i t' Ht'. rewrite Nat.add_succ_l, <- Nat.add_succ_r. now apply Hg. }
  specialize (G (fun k => map (fun j =>
                 ddiv (dsub (F (Example.bump dunit d k j))
                            (F (Example.bump (dsub dzero dunit) d k j)))
                      (dadd dunit dunit))
                 (seq 0 (length (data (Example.nth_core d k))))) 0).
  simpl in G. apply G.
  intros i t Ht. rewrite length_map, length_seq.
  unfold Example.nth_core. now rewrite (nth_error_nth _ _ _ Ht).
Qed.

End ExampleFacts.

Section Binary64Examples.
  #[local] Existing Instance IEEE.binary64.

(** The example host, accepting [None] as a control input. *)
#[local] Instance example_host : Host spec_float := Example.host true.

(** The point [e1 (x) e1], in delta coordinates. *)
Definition deltas11 : list (Tensor spec_float) :=
  [Example.core [1; 2; 1] [1; 0]%Z; Example.core [1; 2; 1] [0; 0]%Z].

Definition raw_deltas : list (Tensor spec_float) :=
  [Example.core [1; 2; 1] [5; 7]%Z; Example.core [1; 2; 1] [1; 1]%Z].

Lemma initial_deltas11 : initial_deltas (right_of Example.x11) = Ok deltas11.
Proof. vm_compute. reflexivity. Qed.

Lemma x11_wf : tt_wf Example.x11.
Proof.
  unfold tt_wf. simpl.
  repeat (apply Forall_cons; [exists 2, 1; split; [reflexivity|lia]|]).
  apply Forall_nil.
Qed.

(** The projector on [raw_deltas]: the component of the first delta along
    the first core is removed, the last delta is kept. *)
Lemma enforce_gauge_projects_witness :
  exists out,
    _enforce_gauge_conditions raw_deltas Example.x11 = Ok out
    /\ Forall2 (fun o d => shape o = shape d) out raw_deltas
    /\ nth_error out 0 = Some (Example.core [1; 2; 1] [0; 7]%Z)
    /\ nth_error out 1 = nth_error raw_deltas 1.
Proof.
  assert (Hd : deltas_wf raw_deltas Example.x11)
    by (repeat (apply Forall2_cons; [split; reflexivity|]); apply Forall2_nil).
  destruct (enforce_gauge_projects x11_wf Hd) as (out & Hout & Hshapes & Hinner & Hlast).
  exists out. repeat split; try assumption.
  rewrite (Hinner 0 _ _ 2 1 ltac:(simpl; lia) eq_refl eq_refl eq_refl).
  vm_compute. reflexivity.
Defined.

Lemma cores_sum_of_squares_values :
  Example.cores_sum_of_squares
    (deltas_to_tangent_space deltas11 Example.x11
       (left_of Example.x11) (right_of Example.x11)) = Example.z 3
  /\ Example.cores_sum_of_squares (right_of Example.x11) = Example.z 2.
Proof. split; vm_compute; reflexivity. Qed.

(** Both differentiation passes of [hessian_vector_product] are built at
    [cores_sum_of_squares]. *)
Lemma second_pass_builds :
  (exists gtv,
      grad_times_vec_of
        (first_pass Example.cores_sum_of_squares Example.x11 deltas11)
        (vec_deltas_of Example.x11 Example.v12) = Ok gtv)
  /\ (exists final,
         _enforce_gauge_conditions
           (second_pass Example.cores_sum_of_squares Example.x11 Example.v12 deltas11)
           (left_of Example.x11) = Ok final).
Proof. split; eexists; vm_compute; reflexivity. Qed.

(** [cores_sum_of_squares] depends on the representation and on every
    delta (each delta is a block of a core of [x_projection]), so that
    every gradient of the two passes exists.  Its check fails, 3 against
    2: the first pass of [hessian_vector_product] depends on no assertion,
    the projection of the vector and the result are not evaluated. *)
Lemma check_precedes_result_witness :
  exists l out,
    build (hvp_body Example.cores_sum_of_squares Example.x11 Example.v12 true) = Ok (l, out)
    /\ guards (h_cores_grad l) = []
    /\ run (h_vector_projected l)
       = InvalidArgumentError err_msg (Example.z 3, Example.z 2)
    /\ run (h_return l) = InvalidArgumentError err_msg (Example.z 3, Example.z 2).
Proof.
  destruct (@check_precedes_result _ _ _ Example.cores_sum_of_squares
              Example.x11 Example.v12 deltas11 initial_deltas11) as [_ H].
  destruct cores_sum_of_squares_values as [E1 E2].
  cbv zeta in H. rewrite E1, E2 in H.
  destruct second_pass_builds as [[gtv Hg] [final Hf]].
  destruct (H gtv final Hg Hf) as (l & out & Hb & _ & _ & Hc & _ & _ & Hfail).
  exists l, out. split; [exact Hb|]. split; [exact Hc|].
  assert (Hcond : condition (check (Example.z 3) (Example.z 2)) = false)
    by (vm_compute; reflexivity).
  destruct (Hfail Hcond) as [Hv Hr]. split; [exact Hv|exact Hr].
Defined.

(** C2 as stated fails on [hessian_vector_product], at a function that
    depends on every delta: with a failing check, the first differentiation
    pass still produces its result. *)
Lemma first_pass_does_not_wait :
  ~ first_pass_waits_for_check Example.cores_sum_of_squares Example.x11 Example.v12.
Proof.
  intro H.
  destruct second_pass_builds as [[gtv Hg] [final Hf]].
  pose proof (hvp_builds Example.cores_sum_of_squares Example.x11 Example.v12 true) as E.
  rewrite initial_deltas11 in E.
  change (control_ok true) with true in E. cbv beta iota in E.
  rewrite Hg, Hf in E.
  eapply (H _ _ _ E).
  - reflexivity.
  - vm_compute; reflexivity.
  - reflexivity.
Qed.

(** Equality of the tensors two TT objects represent. *)
Definition same_full (a b : TensorTrain spec_float) : Prop :=
  Example.full a = Example.full b.

(** The block construction keeps the codec's contract at [x11]. *)
Lemma example_encode_returns_point :
  encode_returns_point same_full Example.x11 (left_of Example.x11) (right_of Example.x11).
Proof.
  intros deltas (c & cs & zs & Hc & -> & Hz).
  change (tt_cores (right_of Example.x11))
    with [Example.core [1; 2; 1] [1; 0]%Z; Example.core [1; 2; 1] [1; 0]%Z] in Hc.
  injection Hc as <- <-.
  inversion Hz as [|zero core zs' cs' (Hs & Hl & H0) Hz']; subst.
  inversion Hz'; subst.
  destruct zero as [zshape zdata]. simpl in Hs, Hl, H0. subst zshape.
  destruct zdata as [|a [|b [|? ?]]]; try discriminate.
  inversion H0 as [|? ? <- H1]; subst. inversion H1 as [|? ? <- _]; subst.
  vm_compute. reflexivity.
Qed.

(** [0.5 * flat_inner(x, t) ** 2] for two fixed tensors: one that [x11]
    is orthogonal to, one that it is not. *)
Definition f_vanishing : TensorTrain spec_float -> spec_float :=
  Example.half_inner_squared Example.t22.

Definition f_any : TensorTrain spec_float -> spec_float :=
  Example.half_inner_squared Example.t_any.

Lemma initial_deltas_encode_x_witness :
  zero_tangent_config (right_of Example.x11) deltas11
  /\ same_full (deltas_to_tangent_space deltas11 Example.x11
                  (left_of Example.x11) (right_of Example.x11)) Example.x11
  /\ forall l out,
       build (gradients_body f_any Example.x11 true) = Ok (l, out) ->
       value (p_deltas (g_start l)) = deltas11.
Proof.
  destruct (@initial_deltas_encode_x spec_float IEEE.binary64 example_host same_full
              f_any Example.x11 Example.v12 true
              (Example.core [1; 2; 1] [1; 0]%Z) [Example.core [1; 2; 1] [1; 0]%Z]
              eq_refl example_encode_returns_point)
    as (_ & Hcfg & _ & Hsame & Hg & _).
  split; [exact Hcfg|]. split; [exact Hsame|].
  intros l out E. now rewrite (Hg l out E).
Defined.

Lemma all_like_shapes {T : Type} (l us cs : list (Tensor T)) :
  all_like l us -> Forall2 (fun u c => shape u = shape c) us cs -> all_like l cs.
Proof.
  intro H. revert cs. induction H as [|t u l us [Hs Hw] _ IH]; intros cs Hc;
    inversion Hc; subst; constructor.
  - split; [congruence|exact Hw].
  - now apply IH.
Qed.

Lemma deltas11_like : all_like deltas11 deltas11.
Proof. repeat (apply Forall2_cons; [split; reflexivity|]). apply Forall2_nil. Qed.

Lemma hvp_differentiates_directional_derivative_witness :
  exists final n out,
    _enforce_gauge_conditions (second_pass f_any Example.x11 Example.v12 deltas11)
                              (left_of Example.x11) = Ok final
    /\ build (hessian_vector_product f_any Example.x11 Example.v12 true) = Ok (n, out)
    /\ value n = deltas_to_tangent_space final Example.x11
                   (left_of Example.x11) (right_of Example.x11)
    /\ directional f_any Example.x11 (left_of Example.x11) (right_of Example.x11)
                   (vec_deltas_of Example.x11 Example.v12) deltas11
       = spec_directional 2 (first_pass f_any Example.x11 deltas11)
                          (vec_deltas_of Example.x11 Example.v12).
Proof.
  assert (H3 : Forall tensor_wf (tt_cores (right_of Example.x11)))
    by (repeat (apply Forall_cons; [reflexivity|]); apply Forall_nil).
  assert (H5 : forall d, all_like d deltas11 ->
                         all_like (first_pass f_any Example.x11 d) deltas11)
    by (intros d Hd; exact (central_differences_like _ Hd)).
  assert (H6 : all_like (vec_deltas_of Example.x11 Example.v12) deltas11).
  { replace (vec_deltas_of Example.x11 Example.v12) with (tt_cores Example.v12)
      by (vm_compute; reflexivity).
    repeat (apply Forall2_cons; [split; reflexivity|]). apply Forall2_nil. }
  assert (H7 : deltas_wf (second_pass f_any Example.x11 Example.v12 deltas11)
                         (left_of Example.x11)).
  { apply all_like_shapes with (us := deltas11).
    - exact (central_differences_like _ deltas11_like).
    - repeat (apply Forall2_cons; [reflexivity|]). apply Forall2_nil. }
  destruct (@hvp_differentiates_directional_derivative
              spec_float IEEE.binary64 example_host f_any Example.x11 Example.v12 true
              deltas11 initial_deltas11 eq_refl H3 x11_wf H5 H6 H7)
    as (final & n & out & Hf & Hb & Hv & HD).
  exists final, n, out.
  split; [exact Hf|]. split; [exact Hb|]. split; [exact Hv|].
  exact (HD deltas11 deltas11_like).
Defined.

Lemma f_vanishing_at_x11 :
  f_vanishing (deltas_to_tangent_space deltas11 Example.x11
                 (left_of Example.x11) (right_of Example.x11)) = S754_zero false.
Proof. vm_compute. reflexivity. Qed.

Lemma vanishing_value_is_rejected_witness :
  session_run (gradients f_vanishing Example.x11 true)
  = Returned (InvalidArgumentError err_msg (S754_zero false, S754_zero false))
  /\ session_run (hessian_vector_product f_vanishing Example.x11 Example.v12 true)
     = Returned (InvalidArgumentError err_msg (S754_zero false, S754_zero false)).
Proof.
  destruct (@vanishing_value_is_rejected 53 1024 example_host f_vanishing
              Example.x11 Example.v12 deltas11 false
              initial_deltas11 f_vanishing_at_x11) as (_ & Hg & Hh).
  assert (E2 : f_vanishing (right_of Example.x11) = S754_zero false)
    by (vm_compute; reflexivity).
  cbv zeta in Hg, Hh. rewrite E2 in Hg, Hh.
  split.
  - assert (Hp : exists projected,
               _enforce_gauge_conditions
                 (first_pass f_vanishing Example.x11 deltas11) (left_of Example.x11)
               = Ok projected)
      by (eexists; vm_compute; reflexivity).
    destruct Hp as [projected Hp]. exact (Hg projected Hp).
  - assert (Hgt : exists gtv,
               grad_times_vec_of
                 (first_pass f_vanishing Example.x11 deltas11)
                 (vec_deltas_of Example.x11 Example.v12) = Ok gtv)
      by (eexists; vm_compute; reflexivity).
    assert (Hf : exists final,
               _enforce_gauge_conditions
                 (second_pass f_vanishing Example.x11 Example.v12 deltas11)
                 (left_of Example.x11) = Ok final)
      by (eexists; vm_compute; reflexivity).
    destruct Hgt as [gtv Hgt]. destruct Hf as [final Hf].
    exact (Hh gtv final Hgt Hf).
Defined.

(** The relative difference of 100000 and 99999 is the format's [1e-5]. *)
Lemma boundary_values :
  rel_diff 53 1024 (Example.z 100000) (Example.z 99999) = IEEE.lit_1em5 53 1024.
Proof. vm_compute. reflexivity. Qed.

Lemma checker_fails_unless_below_witness :
  run_assert (input (check (Example.z 100000) (Example.z 99999)))
  = InvalidArgumentError err_msg (Example.z 100000, Example.z 99999).
Proof.
  assert (Htol : IEEE.lit_1em5 53 1024 <> S754_nan) by (vm_compute; discriminate).
  destruct (@checker_fails_unless_below 53 1024 (Example.z 100000) (Example.z 99999)
              eq_refl Htol) as (_ & _ & [_ Hfail] & _).
  apply Hfail. right. rewrite boundary_values. vm_compute. reflexivity.
Defined.

(** C5 as stated fails at the threshold: the relative difference of 100000
    and 99999 does not exceed [1e-5], and the assertion fails. *)
Lemma fails_at_the_threshold :
  ~ fails_iff_exceeds 53 1024 (Example.z 100000) (Example.z 99999).
Proof.
  intros [H _].
  assert (E : run_assert (input (check (Example.z 100000) (Example.z 99999)))
              = InvalidArgumentError err_msg (Example.z 100000, Example.z 99999))
    by (vm_compute; reflexivity).
  specialize (H E). vm_compute in H. discriminate.
Qed.

(** C8, at a failing input.  [f_vanishing] is [0.5 * flat_inner(x, t) ** 2]
    with [t] orthogonal to [x11]: it depends on the value of its argument
    only, and is zero at [x11].  With [debug] enabled, evaluating the
    result of [gradients] fails with the checker's error, both function
    values being zero; with [debug] disabled [gradients] returns a tangent
    vector when the host takes [None] as a control input, and raises
    [TypeError] when it does not. *)
Theorem debug_rejects_vanishing_invariant_function :
  (forall a b, Example.full a = Example.full b -> f_vanishing a = f_vanishing b)
  /\ f_vanishing Example.x11 = S754_zero false
  /\ session_run (gradients (HT := Example.host true) f_vanishing Example.x11 true)
     = Returned (InvalidArgumentError err_msg (S754_zero false, S754_zero false))
  /\ (exists tangent,
         session_run (gradients (HT := Example.host true) f_vanishing Example.x11 false)
         = Returned (Value tangent))
  /\ session_run (gradients (HT := Example.host false) f_vanishing Example.x11 false)
     = Raised _ TypeError.
Proof.
  split; [|split; [|split; [|split]]].
  - intros a b E. unfold f_vanishing, Example.half_inner_squared. now rewrite E.
  - vm_compute. reflexivity.
  - vm_compute. reflexivity.
  - eexists. vm_compute. reflexivity.
  - vm_compute. reflexivity.
Qed.

End Binary64Examples.

Section Binary64Gauge.
  #[local] Existing Instance IEEE.binary64.

(** The decimal literal [1e-6], correctly rounded to binary64. *)
Definition lit_1em6 : spec_float :=
  SFdiv 53 1024 (Example.z 1) (Example.z 1000000).

Definition half : spec_float := SFdiv 53 1024 (Example.z 1) (Example.z 2).

(** A TT-tensor whose first core is the column [[0.5, 0.5, 0.5, 0.5]]: its
    [Q^T Q] is [4 * 0.25 = 1], without rounding. *)
Definition halves : Tensor spec_float := mkTensor [1; 4; 1] [half; half; half; half].

Definition left_halves : TensorTrain spec_float :=
  mkTT [halves; Example.core [1; 2; 1] [1; 0]%Z] false.

(** Raw deltas with entries [1] and [2 ** 53] in the first one. *)
Definition large_deltas : list (Tensor spec_float) :=
  [Example.core [1; 4; 1] [1; 2 ^ 53; 0; 0]%Z; Example.core [1; 2; 1] [0; 0]%Z].

Lemma halves_orthonormal : orthonormal_columns 4 1 (as_matrix 1 halves).
Proof.
  intros l l' Hl Hl'.
  assert (l = 0) by lia. assert (l' = 0) by lia. subst.
  vm_compute. reflexivity.
Qed.

(** [Q^T delta] is [0.5 + 2 ** 52], rounded to [2 ** 52]; the projector
    subtracts [2 ** 51] from every entry. *)
Lemma large_deltas_projected :
  _enforce_gauge_conditions large_deltas left_halves
  = Ok [Example.core [1; 4; 1] [1 - 2 ^ 51; 3 * 2 ^ 51; - 2 ^ 51; - 2 ^ 51]%Z;
        Example.core [1; 2; 1] [0; 0]%Z].
Proof. vm_compute. reflexivity. Qed.

(** The entry of [Q^T delta'] is [0.5], which is not below [1e-6]. *)
Lemma large_deltas_residue :
  mat_mul 4 (mat_T (as_matrix 1 halves))
          (as_matrix 1 (Example.core [1; 4; 1]
                          [1 - 2 ^ 51; 3 * 2 ^ 51; - 2 ^ 51; - 2 ^ 51]%Z)) 0 0
  = half
  /\ dlt (dabs half) lit_1em6 = false.
Proof. split; vm_compute; reflexivity. Qed.

(** C4 as stated fails in binary64: [left_halves] is a TT-tensor whose
    first core has orthonormal columns, [large_deltas] is shaped like its
    cores, and the first output of the projector has [Q^T delta' = 0.5]. *)
Lemma gauge_orthogonality_fails_in_binary64 :
  tt_wf left_halves
  /\ deltas_wf large_deltas left_halves
  /\ orthonormal_columns 4 1 (as_matrix 1 halves)
  /\ ~ gauge_orthogonal_within lit_1em6 large_deltas left_halves.
Proof.
  split; [|split; [|split]].
  - unfold tt_wf. simpl.
    apply Forall_cons; [exists 4, 1; split; [reflexivity|lia]|].
    apply Forall_cons; [exists 2, 1; split; [reflexivity|lia]|].
    apply Forall_nil.
  - repeat (apply Forall2_cons; [split; reflexivity|]); apply Forall2_nil.
  - exact halves_orthonormal.
  - intro H.
    pose proof (H 0 4 1 halves _ _ ltac:(simpl; lia) eq_refl eq_refl
                  halves_orthonormal large_deltas_projected eq_refl
                  0 0 ltac:(lia) ltac:(lia)) as Hlt.
    destruct large_deltas_residue as [E Hnot].
    rewrite E, Hnot in Hlt. discriminate Hlt.
Qed.

End Binary64Gauge.

Section RealExamples.
  #[local] Existing Instance Exact.scalar.
  Local Open Scope R_scope.

Definition left_R : TensorTrain R :=
  mkTT [mkTensor [1; 2; 1]%nat [1; 0]; mkTensor [1; 2; 1]%nat [3; 4]] false.

Definition deltas_R : list (Tensor R) :=
  [mkTensor [1; 2; 1]%nat [5; 7]; mkTensor [1; 2; 1]%nat [1; 1]].

Lemma gauge_orthogonality_witness :
  exists out o,
    _enforce_gauge_conditions deltas_R left_R = Ok out
    /\ nth_error out 0 = Some o
    /\ mat_mul 2 (mat_T (as_matrix 1 (mkTensor [1; 2; 1]%nat [1; 0])))
               (as_matrix 1 o) 0 0 = 0
    /\ Rabs (mat_mul 2 (mat_T (as_matrix 1 (mkTensor [1; 2; 1]%nat [1; 0])))
                     (as_matrix 1 o) 0 0) < 1 / 1000000.
Proof.
  assert (Hleft : tt_wf left_R).
  { unfold tt_wf. simpl.
    repeat (apply Forall_cons; [exists 2%nat, 1%nat; split; [reflexivity|lia]|]).
    apply Forall_nil. }
  assert (Hdeltas : deltas_wf deltas_R left_R)
    by (repeat (apply Forall2_cons; [split; reflexivity|]); apply Forall2_nil).
  assert (HQ : orthonormal_columns 2 1 (as_matrix 1 (mkTensor [1; 2; 1]%nat [1; 0]))).
  { intros l l' Hl Hl'.
    assert (l = 0%nat) by lia. assert (l' = 0%nat) by lia. subst.
    unfold mat_mul, mat_T, as_matrix, at2, sum_upto. simpl. ring. }
  destruct (@gauge_orthogonality R Exact.scalar Ropp deltas_R left_R 0 2 1 _
              Exact.exact_ring Hleft Hdeltas ltac:(simpl; lia) eq_refl eq_refl HQ)
    as (out & o & Hout & Ho & Hz).
  exists out, o. split; [exact Hout|]. split; [exact Ho|].
  destruct (Hz 0%nat 0%nat ltac:(lia) ltac:(lia)) as [E _].
  split; [exact E|]. rewrite E. change (Rabs 0 < 1 / 1000000). rewrite Rabs_R0. lra.
Defined.

End RealExamples.

(** * Part IV: further properties of the program *)

(** ** The gauge projector on lists of any length and shape *)


Section ProjectorEdges.
Context {T : Type} {ST : Scalar T}.











End ProjectorEdges.

(** ** The gauge projector applied twice *)

Section ProjectorIdempotent.
Context {T : Type} {ST : Scalar T}.
Variable dopp : T -> T.
Hypothesis scalar_ring : ring_theory dzero dunit dadd dmul dsub dopp eq.

Add Ring scalar_ring_idem : scalar_ring.





End ProjectorIdempotent.

(** ** The debug switch *)

Section DebugSwitch.
Context {T : Type} {ST : Scalar T} {HT : Host T}.





End DebugSwitch.

(** ** Which function values the checker lets through *)

Section CheckerValues.
Variables prec emax : Z.




End CheckerValues.


(** ** The further properties at concrete inputs *)

Section FurtherExamples.
  #[local] Existing Instance IEEE.binary64.
  #[local] Existing Instance example_host.















End FurtherExamples.

Section FurtherRealExamples.
  #[local] Existing Instance Exact.scalar.
  Local Open Scope R_scope.




End FurtherRealExamples.
